(** * The intraday movement scanner of app.py

    A shallow embedding of [get_stocks_with_movement] and of the batch loop
    that calls it.  Prices are IEEE binary64 numbers, as pandas holds them: an
    absent value is NaN, a division by zero gives an infinity or NaN and raises
    nothing, and every comparison with NaN is false.  The price provider
    (yfinance), the wall clock and the session store are the environment of a
    call. *)

From Stdlib Require Import Floats.PrimFloat ZArith List Bool Lia Permutation.
From Stdlib Require Import Strings.String DecimalString.
From Stdlib Require Floats.FloatAxioms.
Import ListNotations.
Local Open Scope string_scope.
Local Open Scope list_scope.

(** ** Exceptions

    The body of [get_stocks_with_movement] runs inside [try ... except
    Exception]; a step that can raise returns in [Exc]. *)

Inductive Exception : Type :=
| KeyError (label : string)
| IndexError
| ProviderError.

Inductive Exc (A : Type) : Type :=
| Ok (a : A)
| Raise (e : Exception).
Arguments Ok {A} a.
Arguments Raise {A} e.

Definition bind {A B : Type} (c : Exc A) (k : A -> Exc B) : Exc B :=
  match c with
  | Ok a => k a
  | Raise e => Raise e
  end.

Notation "x <- c ;; k" := (bind c (fun x => k))
  (at level 61, c at next level, right associativity).

(** ** binary64 helpers *)

Module Float64.
Local Open Scope float_scope.

Definition two52 : float := 4503599627370496.

(** C's [rint] under the default rounding mode: the nearest integer, ties to
    even.  Below 2^52 in magnitude, adding and removing 2^52 rounds the
    fraction away; from 2^52 on, and for NaN and the infinities, the value is
    its own result.  A zero result keeps the sign of [x]. *)
Definition rint (x : float) : float :=
  if abs x <? two52 then
    let r := if x <? 0 then (x - two52) + two52 else (x + two52) - two52 in
    if r =? 0 then x * 0 else r
  else x.

(** [round(pct, 2)] on a numpy float64: numpy scales by [10**2], applies
    [rint] and divides back. *)
Definition round2 (x : float) : float := rint (x * 100) / 100.

End Float64.

(** ** Labels *)

Definition mem (s : string) (l : list string) : bool :=
  existsb (String.eqb s) l.

Fixpoint labels_eqb (l1 l2 : list string) : bool :=
  match l1, l2 with
  | [], [] => true
  | a :: t1, b :: t2 => String.eqb a b && labels_eqb t1 t2
  | _, _ => false
  end.

Fixpoint insert_label (s : string) (l : list string) : list string :=
  match l with
  | [] => [s]
  | a :: t => if String.leb s a then s :: l else a :: insert_label s t
  end.

Definition sort_labels (l : list string) : list string :=
  fold_right insert_label [] l.

Definition union_labels (l1 l2 : list string) : list string :=
  l1 ++ filter (fun s => negb (mem s l1)) l2.

(** ** A fragment of pandas

    A DataFrame of numbers: column labels, and one row per index entry.  A row
    gives the cell under each label.  All frames of one call are cut from the
    same download, so they share its index and rows pair up by position. *)

Module Pandas.

Definition Series : Type := list float.

Record DataFrame : Type := mkFrame {
  columns : list string;
  rows : list (string -> float)
}.

(** Column alignment of a binary operation: equal label lists are kept as
    they are, otherwise the result has the sorted union. *)
Definition align (c1 c2 : list string) : list string :=
  if labels_eqb c1 c2 then c1 else sort_labels (union_labels c1 c2).

Fixpoint zip_rows (op : float -> float -> float) (ca cb : list string)
    (ra rb : list (string -> float)) : list (string -> float) :=
  match ra, rb with
  | a :: ta, b :: tb =>
      (fun s => if mem s ca && mem s cb then op (a s) (b s) else nan)
        :: zip_rows op ca cb ta tb
  | _, _ => []
  end.

(** [a - b], [a / b]: cell by cell on the labels both frames have, NaN under
    a label only one of them has. *)
Definition binop (op : float -> float -> float) (a b : DataFrame) : DataFrame :=
  {| columns := align (columns a) (columns b);
     rows := zip_rows op (columns a) (columns b) (rows a) (rows b) |}.

Definition sub_frame : DataFrame -> DataFrame -> DataFrame := binop PrimFloat.sub.
Definition div_frame : DataFrame -> DataFrame -> DataFrame := binop PrimFloat.div.

(** [df * k] for a scalar [k]. *)
Definition mul_scalar (df : DataFrame) (k : float) : DataFrame :=
  {| columns := columns df;
     rows := map (fun r s => PrimFloat.mul (r s) k) (rows df) |}.

(** [df[cond]] for a boolean frame computed cell by cell from [df] itself:
    the cell where the condition holds, NaN elsewhere. *)
Definition where_ (cond : float -> bool) (df : DataFrame) : DataFrame :=
  {| columns := columns df;
     rows := map (fun r s => if cond (r s) then r s else nan) (rows df) |}.

Definition row_has_value (cols : list string) (r : string -> float) : bool :=
  existsb (fun s => negb (is_nan (r s))) cols.

(** [df.dropna(how='all')]: rows whose cells are all NaN go. *)
Definition dropna_all (df : DataFrame) : DataFrame :=
  {| columns := columns df;
     rows := filter (row_has_value (columns df)) (rows df) |}.

(** [df[symbol]]. *)
Definition getitem (df : DataFrame) (symbol : string) : Exc Series :=
  if mem symbol (columns df)
  then Ok (map (fun r => r symbol) (rows df))
  else Raise (KeyError symbol).

(** [s.empty], [s.iloc[0]], [s.iloc[-1]]. *)
Definition series_empty (s : Series) : bool :=
  match s with [] => true | _ => false end.

Definition iloc_first (s : Series) : Exc float :=
  match s with
  | [] => Raise IndexError
  | x :: _ => Ok x
  end.

Fixpoint iloc_last (s : Series) : Exc float :=
  match s with
  | [] => Raise IndexError
  | [x] => Ok x
  | _ :: t => iloc_last t
  end.

End Pandas.
Import Pandas.

(** ** The price provider

    [yf.download] answers with a frame of bars, or raises.  With several
    tickers the columns are a MultiIndex of (field, ticker) pairs, the same
    tickers under every field; otherwise they are the plain field names of
    the one ticker. *)

Record PriceBar : Type := mkBar {
  bar_open : float;
  bar_high : float;
  bar_low : float;
  bar_close : float
}.

Inductive PriceTable : Type :=
| MultiIndexColumns (tickers : list string) (index : list (string -> PriceBar))
| FlatColumns (index : list PriceBar).

Inductive Interval : Type := OneMinute | OneDay.

(** The arguments of [yf.download] that vary: the symbols, [start] and [end]
    (a day, by its ordinal, for the text "%Y-%m-%d" of it) and the interval;
    [period='1d'] and [progress=False] are the same in every call. *)
Record Request : Type := mkRequest {
  req_symbols : list string;
  req_start : Z;
  req_end : Z;
  req_interval : Interval
}.

(** A wall-clock reading in Asia/Kolkata: the proleptic ordinal of the day,
    and the hour and minute the code looks at. *)
Record datetime : Type := mkDatetime {
  toordinal : Z;
  hour : Z;
  minute : Z
}.

(** What a call reads besides its arguments. *)
Record Env : Type := mkEnv {
  now : datetime;
  live_in_session_state : bool;
  download : Request -> Exc PriceTable
}.

(** [data.empty]. *)
Definition table_empty (data : PriceTable) : bool :=
  match data with
  | MultiIndexColumns [] _ => true
  | MultiIndexColumns _ [] => true
  | MultiIndexColumns _ _ => false
  | FlatColumns [] => true
  | FlatColumns _ => false
  end.

(** [data['Open']] under MultiIndex columns, [data[['Open']]] otherwise. *)
Definition field_frame (name : string) (field : PriceBar -> float)
    (data : PriceTable) : DataFrame :=
  match data with
  | MultiIndexColumns tickers index =>
      {| columns := tickers; rows := map (fun r s => field (r s)) index |}
  | FlatColumns index =>
      {| columns := [name]; rows := map (fun b _ => field b) index |}
  end.

(** ** get_stocks_with_movement *)

Record MovementRecord : Type := mkRecord {
  Symbol : string;
  Movement : float;
  Open : float;
  High : float;
  Low : float;
  Close : float;
  Sector : string
}.

(** Lines 38-43: the date when none is given. *)
Definition market_closed (t : datetime) : bool :=
  ((hour t <? 9) || ((hour t =? 9) && (minute t <? 15))
   || (hour t >? 15) || ((hour t =? 15) && (minute t >? 30)))%Z.

Definition default_date (t : datetime) : Z :=
  if market_closed t then (toordinal t - 1)%Z else toordinal t.

Definition resolve_date (env : Env) (selected_date : option Z) : Z :=
  match selected_date with
  | Some d => d
  | None => default_date (now env)
  end.

Definition make_request (env : Env) (symbols : list string) (date : Z) : Request :=
  {| req_symbols := symbols;
     req_start := date;
     req_end := date;
     req_interval := if live_in_session_state env then OneMinute else OneDay |}.

(** The mask [(movements >= min_pct) & (movements <= max_pct)]. *)
Definition in_band (min_pct max_pct x : float) : bool :=
  (min_pct <=? x)%float && (x <=? max_pct)%float.

(** [if sector_filter and sector != sector_filter]. *)
Definition sector_rejected (sector_filter : option string) (sector : string) : bool :=
  match sector_filter with
  | None => false
  | Some f => negb (String.eqb f "") && negb (String.eqb sector f)
  end.

Section Loop.
Variables opens closes highs lows filtered : DataFrame.
Variable sector_filter : option string.

  (** Lines 65-80, one pass per column label of [filtered]. *)
Fixpoint for_symbols (todo : list string) (result : list MovementRecord)
      : Exc (list MovementRecord) :=
    match todo with
    | [] => Ok result
    | symbol :: rest =>
        col <- getitem filtered symbol ;;
        pct <- (if series_empty col then Ok None
                else x <- iloc_last col ;; Ok (Some x)) ;;
        match pct with
        | None => for_symbols rest result
        | Some pct =>
            let sector := "Unknown" in
            if sector_rejected sector_filter sector then for_symbols rest result
            else
              o <- (s <- getitem opens symbol ;; iloc_first s) ;;
              h <- (s <- getitem highs symbol ;; iloc_last s) ;;
              l <- (s <- getitem lows symbol ;; iloc_last s) ;;
              c <- (s <- getitem closes symbol ;; iloc_last s) ;;
              for_symbols rest
                (result ++ [ {| Symbol := symbol;
                                Movement := Float64.round2 pct;
                                Open := o; High := h; Low := l; Close := c;
                                Sector := sector |} ])
        end
    end.
End Loop.

(** Lines 47-81, from the downloaded frame on. *)
Definition movements_of (highs lows : DataFrame) : DataFrame :=
  dropna_all (mul_scalar (div_frame (sub_frame highs lows) lows) 100%float).

Definition filtered_of (min_pct max_pct : float) (movements : DataFrame) : DataFrame :=
  dropna_all (where_ (in_band min_pct max_pct) movements).

Definition shape (data : PriceTable) (min_pct max_pct : float)
    (sector_filter : option string) : Exc (list MovementRecord) :=
  if table_empty data then Ok []
  else
    let opens := field_frame "Open" bar_open data in
    let closes := field_frame "Close" bar_close data in
    let highs := field_frame "High" bar_high data in
    let lows := field_frame "Low" bar_low data in
    let movements := movements_of highs lows in
    let filtered := filtered_of min_pct max_pct movements in
    for_symbols opens closes highs lows filtered sector_filter
      (columns filtered) [].

(** The [try] block. *)
Definition try_block (env : Env) (symbols : list string) (min_pct max_pct : float)
    (date : Z) (sector_filter : option string) : Exc (list MovementRecord) :=
  data <- download env (make_request env symbols date) ;;
  shape data min_pct max_pct sector_filter.

(** The function: whatever the [try] block raises is caught and an empty
    frame returned in its place.  The message [st.error] shows is no part of
    the value returned. *)
Definition get_stocks_with_movement (env : Env) (symbols : list string)
    (min_pct max_pct : float) (selected_date : option Z)
    (sector_filter : option string) : list MovementRecord :=
  match try_block env symbols min_pct max_pct (resolve_date env selected_date)
          sector_filter with
  | Ok result => result
  | Raise _ => []
  end.

(** ** The scan loop (lines 119-127) *)

Definition batch_size : nat := 500.

(** [range(0, n, step)] and the slice [l[i:i+step]]. *)
Definition range_step (n step : nat) : list nat :=
  map (fun k => k * step) (seq 0 ((n + step - 1) / step)).

Definition slice (l : list string) (i len : nat) : list string :=
  firstn len (skipn i l).

Definition batches_of (step : nat) (all_symbols : list string) : list (list string) :=
  map (fun i => slice all_symbols i step) (range_step (List.length all_symbols) step).

Section Scan.
Variable env : Env.
Variables min_pct max_pct : float.
Variable selected_date : Z.
Variable sector_filter : option string.

  (** The loop body over the given batches: a batch result is appended
      unless it is empty. *)
Fixpoint collect (batches : list (list string)) (results : list (list MovementRecord))
      : list (list MovementRecord) :=
    match batches with
    | [] => results
    | batch :: rest =>
        let df_batch :=
          get_stocks_with_movement env batch min_pct max_pct
            (Some selected_date) sector_filter in
        match df_batch with
        | [] => collect rest results
        | _ => collect rest (results ++ [df_batch])
        end
    end.

  (** [pd.concat(results).sort_values(...)] when [results] is not empty;
      [None] is the branch that only prints that nothing matched.  The sort
      is the library's and is taken as given. *)
Variable sort_values : list MovementRecord -> list MovementRecord.

Definition scan_batches (batches : list (list string)) : option (list MovementRecord) :=
    match collect batches [] with
    | [] => None
    | results => Some (sort_values (List.concat results))
    end.

Definition scan_now (all_symbols : list string) : option (list MovementRecord) :=
    scan_batches (batches_of batch_size all_symbols).
End Scan.

(** ** Notions the specification speaks of *)

(** The trading session window 09:15 to 15:30, both ends included, on the
    minute of the day. *)
Definition in_session_window (t : datetime) : bool :=
  ((9 * 60 + 15 <=? hour t * 60 + minute t)
   && (hour t * 60 + minute t <=? 15 * 60 + 30))%Z.

(** The intraday movement of a bar, [(high - low) / low * 100]. *)
Definition movement_pct (b : PriceBar) : float :=
  ((bar_high b - bar_low b) / bar_low b * 100)%float.

(** The cell of a bar in the masked frame: its movement inside the band,
    NaN otherwise. *)
Definition masked_movement (min_pct max_pct : float) (b : PriceBar) : float :=
  let m := movement_pct b in
  if in_band min_pct max_pct m then m else nan.

(** The record the loop builds for [symbol] from a table of one row. *)
Definition daily_record (min_pct max_pct : float) (day : string -> PriceBar)
    (symbol : string) : MovementRecord :=
  {| Symbol := symbol;
     Movement := Float64.round2 (masked_movement min_pct max_pct (day symbol));
     Open := bar_open (day symbol);
     High := bar_high (day symbol);
     Low := bar_low (day symbol);
     Close := bar_close (day symbol);
     Sector := "Unknown" |}.

(** Some ticker of the row moved inside the band. *)
Definition any_in_band (min_pct max_pct : float) (day : string -> PriceBar)
    (tickers : list string) : bool :=
  row_has_value tickers (fun s => masked_movement min_pct max_pct (day s)).

(** A bar is absent when the provider has no value in it. *)
Definition bar_absent (b : PriceBar) : bool :=
  is_nan (bar_open b) && is_nan (bar_high b)
  && is_nan (bar_low b) && is_nan (bar_close b).

(** The bars of [symbol], in index order. *)
Definition bars_of (index : list (string -> PriceBar)) (symbol : string) : list PriceBar :=
  map (fun r => r symbol) index.

Definition first_available (bars : list PriceBar) : option PriceBar :=
  find (fun b => negb (bar_absent b)) bars.

Definition last_available (bars : list PriceBar) : option PriceBar :=
  first_available (rev bars).

(** A record that takes its Open from the first available bar of its ticker
    and its High, Low and Close from the last available one. *)
Definition from_available_bars (index : list (string -> PriceBar))
    (r : MovementRecord) : Prop :=
  exists fb lb,
    first_available (bars_of index (Symbol r)) = Some fb
    /\ last_available (bars_of index (Symbol r)) = Some lb
    /\ Open r = bar_open fb
    /\ High r = bar_high lb /\ Low r = bar_low lb /\ Close r = bar_close lb.

(** First and last row of the index, whatever they hold. *)
Definition first_row {A : Type} (l : list A) : option A := hd_error l.

Fixpoint last_row {A : Type} (l : list A) : option A :=
  match l with
  | [] => None
  | [x] => Some x
  | _ :: t => last_row t
  end.

(** The provider answered a request with nothing: an exception, or a frame
    with an axis of length 0. *)
Definition no_data (response : Exc PriceTable) : Prop :=
  match response with
  | Ok data => table_empty data = true
  | Raise _ => True
  end.

(** ** Sample sessions *)

Module Sample.
Local Open Scope float_scope.

Definition FOO : PriceBar := mkBar 100 106 100 104.
Definition BAR : PriceBar := mkBar 100 130 100 120.
Definition BAZ : PriceBar := mkBar 5 5 0 5.
Definition absent : PriceBar := mkBar nan nan nan nan.

(** One trading day. *)
Definition day (s : string) : PriceBar :=
  if String.eqb s "FOO.NS" then FOO
  else if String.eqb s "BAR.NS" then BAR
  else if String.eqb s "BAZ.NS" then BAZ
  else absent.

(** A provider that answers every request with the day's bar of each
    requested ticker. *)
Definition daily (req : Request) : Exc PriceTable :=
  Ok (MultiIndexColumns (req_symbols req) [day]).

Definition unreachable (req : Request) : Exc PriceTable := Raise ProviderError.

Definition nothing (req : Request) : Exc PriceTable := Ok (MultiIndexColumns [] []).

(** The provider is down for batches that hold BAR.NS. *)
Definition flaky (req : Request) : Exc PriceTable :=
  if mem "BAR.NS" (req_symbols req) then Raise ProviderError else daily req.

Definition one_ticker_flat (req : Request) : Exc PriceTable := Ok (FlatColumns [FOO]).

Definition noon : datetime := {| toordinal := 739923; hour := 12; minute := 0 |}.
Definition evening : datetime := {| toordinal := 739923; hour := 18; minute := 45 |}.
Definition closing_minute : datetime := {| toordinal := 739923; hour := 15; minute := 30 |}.

Definition env (provider : Request -> Exc PriceTable) : Env :=
  {| now := noon; live_in_session_state := true; download := provider |}.

Definition env_closing (provider : Request -> Exc PriceTable) : Env :=
  {| now := closing_minute; live_in_session_state := true; download := provider |}.

Definition env_evening (provider : Request -> Exc PriceTable) : Env :=
  {| now := evening; live_in_session_state := false; download := provider |}.

Definition date : Z := 739922%Z.

(** Two minute bars; AAA.NS has no trade in the first minute. *)
Definition minute1 (s : string) : PriceBar :=
  if String.eqb s "BBB.NS" then mkBar 50 52 50 51 else absent.

Definition minute2 (s : string) : PriceBar :=
  if String.eqb s "AAA.NS" then FOO
  else if String.eqb s "BBB.NS" then mkBar 50 52 50 51
  else absent.

Definition intraday (req : Request) : Exc PriceTable :=
  Ok (MultiIndexColumns (req_symbols req) [minute1; minute2]).

(** 501 tickers: BAR.NS, 499 tickers the provider has nothing for, FOO.NS. *)
Definition filler (n : nat) : string :=
  "T" ++ NilZero.string_of_uint (Nat.to_uint n) ++ ".NS".

Definition listing : list string :=
  "BAR.NS" :: map filler (seq 1 499) ++ ["FOO.NS"].

Definition FOO_record : MovementRecord :=
  {| Symbol := "FOO.NS"; Movement := 6; Open := 100; High := 106;
     Low := 100; Close := 104; Sector := "Unknown" |}.

Definition BAR_record : MovementRecord :=
  {| Symbol := "BAR.NS"; Movement := nan; Open := 100; High := 130;
     Low := 100; Close := 120; Sector := "Unknown" |}.

Definition BAZ_record : MovementRecord :=
  {| Symbol := "BAZ.NS"; Movement := nan; Open := 5; High := 5;
     Low := 0; Close := 5; Sector := "Unknown" |}.

Definition QUX_record : MovementRecord :=
  {| Symbol := "QUX.NS"; Movement := nan; Open := nan; High := nan;
     Low := nan; Close := nan; Sector := "Unknown" |}.

Definition AAA_record : MovementRecord :=
  {| Symbol := "AAA.NS"; Movement := 6; Open := nan; High := 106;
     Low := 100; Close := 104; Sector := "Unknown" |}.

Definition BBB_record : MovementRecord :=
  {| Symbol := "BBB.NS"; Movement := 4; Open := 50; High := 52;
     Low := 50; Close := 51; Sector := "Unknown" |}.

End Sample.

(** What one pass of the loop puts in a record, read off the five frames. *)
Definition emitted_from (opens closes highs lows filtered : DataFrame)
    (r : MovementRecord) : Prop :=
  (exists pct,
      (s <- getitem filtered (Symbol r) ;; iloc_last s) = Ok pct
      /\ Movement r = Float64.round2 pct)
  /\ (s <- getitem opens (Symbol r) ;; iloc_first s) = Ok (Open r)
  /\ (s <- getitem highs (Symbol r) ;; iloc_last s) = Ok (High r)
  /\ (s <- getitem lows (Symbol r) ;; iloc_last s) = Ok (Low r)
  /\ (s <- getitem closes (Symbol r) ;; iloc_last s) = Ok (Close r)
  /\ Sector r = "Unknown".

(** ** Records read off a table with per-ticker columns *)

(** The rows of the index that outlive the mask and the second [dropna]:
    those in which some ticker moved inside the band. *)
Definition surviving_rows (min_pct max_pct : float) (tickers : list string)
    (index : list (string -> PriceBar)) : list (string -> PriceBar) :=
  filter (fun row => any_in_band min_pct max_pct row tickers) index.

(** The record of [symbol] when the Open is read in row [first], High, Low
    and Close in row [last] and the movement in row [kept]. *)
Definition table_record (min_pct max_pct : float)
    (first last kept : string -> PriceBar) (symbol : string) : MovementRecord :=
  {| Symbol := symbol;
     Movement := Float64.round2 (masked_movement min_pct max_pct (kept symbol));
     Open := bar_open (first symbol);
     High := bar_high (last symbol);
     Low := bar_low (last symbol);
     Close := bar_close (last symbol);
     Sector := "Unknown" |}.

Definition table_records (min_pct max_pct : float) (tickers : list string)
    (index : list (string -> PriceBar)) : list MovementRecord :=
  match first_row index, last_row index,
        last_row (surviving_rows min_pct max_pct tickers index) with
  | Some first, Some last, Some kept =>
      map (table_record min_pct max_pct first last kept) tickers
  | _, _, _ => []
  end.

(** ** The session store and the auto-refresh (lines 104-106, 151-159) *)

Module Session.

(** The two keys of [st.session_state] the script uses; [None] is a key
    that is not there. *)
Record State : Type := mkState {
  live : option bool;
  all_symbols : option (list string)
}.

(** Lines 105-106. *)
Definition init_live (st : State) : State :=
  match live st with
  | None => {| live := Some false; all_symbols := all_symbols st |}
  | Some _ => st
  end.

(** ['live' in st.session_state], the test of line 46. *)
Definition has_live (st : State) : bool :=
  match live st with
  | Some _ => true
  | None => false
  end.

(** The environment of a scanner call made under session [st]. *)
Definition env (clock : datetime) (st : State)
    (provider : Request -> Exc PriceTable) : Env :=
  {| now := clock; live_in_session_state := has_live st; download := provider |}.

(** Line 154: [9 <= hour <= 15 and (hour != 15 or minute <= 30)]. *)
Definition refresh_window (t : datetime) : bool :=
  ((9 <=? hour t) && (hour t <=? 15)
   && (negb (hour t =? 15) || (minute t <=? 30)))%Z.

Inductive Outcome : Type :=
| SleepAndRerun (seconds : Z)
| Paused
| Off.

(** Lines 152-159. *)
Definition auto_refresh_step (auto_refresh : bool) (t : datetime) (st : State)
    : State * Outcome :=
  if auto_refresh then
    if refresh_window t
    then ({| live := Some true; all_symbols := all_symbols st |}, SleepAndRerun 300)
    else (st, Paused)
  else (st, Off).

End Session.

(** ** The symbol sources (lines 13-34, 109-113) *)

Module Symbols.

(** What [pd.read_csv] makes of a listing: the column labels, each with the
    text of its cells. *)
Definition CsvFrame : Type := list (string * list string).

(** The answer of the NSE archive: the status, and the outcome of parsing
    the body, which is only looked at under status 200. *)
Record NseResponse : Type := mkNse {
  nse_status : Z;
  nse_csv : Exc CsvFrame
}.

(** [df[label]]. *)
Fixpoint csv_column (df : CsvFrame) (label : string) : Exc (list string) :=
  match df with
  | [] => Raise (KeyError label)
  | (name, cells) :: rest =>
      if String.eqb name label then Ok cells else csv_column rest label
  end.

(** Lines 13-20; [requests.get] may itself raise. *)
Definition get_nse_symbols (fetched : Exc NseResponse) : Exc (list string) :=
  response <- fetched ;;
  if (nse_status response =? 200)%Z then
    df <- nse_csv response ;;
    column <- csv_column df "SYMBOL" ;;
    Ok (map (fun x => String.append x ".NS") column)
  else Ok [].

(** A row of the JSON list under ['Table']: its fields, each with the text
    of its value. *)
Definition JsonRow : Type := list (string * string).

(** The answer of the BSE API: the status, and the outcome of
    [response.json()]: the list under 'Table' when the key is there. *)
Record BseResponse : Type := mkBse {
  bse_status : Z;
  bse_json : Exc (option (list JsonRow))
}.

Fixpoint row_field (row : JsonRow) (key : string) : option string :=
  match row with
  | [] => None
  | (name, value) :: rest =>
      if String.eqb name key then Some value else row_field rest key
  end.

Definition has_field (key : string) (row : JsonRow) : bool :=
  match row_field row key with
  | Some _ => true
  | None => false
  end.

(** [pd.DataFrame(rows)[key]]: the frame has the column when some row has
    the field, and a row without it holds NaN there. *)
Definition records_column (table : list JsonRow) (key : string) : Exc (list string) :=
  if existsb (has_field key) table
  then Ok (map (fun row => match row_field row key with
                           | Some value => value
                           | None => "nan"
                           end) table)
  else Raise (KeyError key).

(** Lines 23-34; [requests.post] may itself raise. *)
Definition get_bse_symbols (fetched : Exc BseResponse) : Exc (list string) :=
  response <- fetched ;;
  if (bse_status response =? 200)%Z then
    data <- bse_json response ;;
    match data with
    | Some table =>
        column <- records_column table "scrip_id" ;;
        Ok (map (fun x => String.append x ".BO") column)
    | None => Ok []
    end
  else Ok [].

Section Fetch.
(** [list(set(l))]: the distinct elements of [l], in the order the set
    yields them. *)
Variable list_of_set : list string -> list string.

(** Lines 111-113. *)
Definition fetch_all_symbols (nse : Exc NseResponse) (bse : Exc BseResponse)
    : Exc (list string) :=
  nse_symbols <- get_nse_symbols nse ;;
  bse_symbols <- get_bse_symbols bse ;;
  Ok (list_of_set (nse_symbols ++ bse_symbols)).
End Fetch.

(** Sample answers. *)
Definition nse_listing : Exc NseResponse :=
  Ok {| nse_status := 200;
        nse_csv := Ok [("SYMBOL", ["INFY"; "TCS"]); (" SERIES", ["EQ"; "EQ"])] |}.

Definition bse_table : list JsonRow :=
  [ [("scrip_cd", "500209"); ("scrip_id", "INFY")];
    [("scrip_cd", "532540"); ("scrip_id", "TCS")] ].

Definition bse_answer : BseResponse :=
  {| bse_status := 200; bse_json := Ok (Some bse_table) |}.

Definition bse_listing : Exc BseResponse := Ok bse_answer.

End Symbols.

(** ** The scan loop, once more *)

(** [not df_batch.empty], the test of line 124. *)
Definition not_empty_test (df_batch : list MovementRecord) : bool :=
  match df_batch with
  | [] => false
  | _ => true
  end.

(** Lines 98-102: the sector choices of the sidebar, and the filter a
    choice stands for. *)
Definition sector_choices : list string :=
  ["All"; "IT"; "Finance"; "Energy"; "Healthcare"].

Definition sidebar_sector_filter (choice : string) : option string :=
  if String.eqb choice "All" then None else Some choice.

(** ** A sample minute session *)

Module Minutes.
Local Open Scope float_scope.

(** CCC.NS moves 5% in the first minute and stands still in the second;
    DDD.NS trades in the second minute only and moves 1.25%. *)
Definition minute_a (s : string) : PriceBar :=
  if String.eqb s "CCC.NS" then mkBar 10 10.5 10 10.25 else Sample.absent.

Definition minute_b (s : string) : PriceBar :=
  if String.eqb s "CCC.NS" then mkBar 10.25 10.25 10.25 10.25
  else if String.eqb s "DDD.NS" then mkBar 20 20.25 20 20.25
  else Sample.absent.

Definition provider (req : Request) : Exc PriceTable :=
  Ok (MultiIndexColumns (req_symbols req) [minute_a; minute_b]).

Definition CCC_record : MovementRecord :=
  {| Symbol := "CCC.NS"; Movement := 5; Open := 10; High := 10.25;
     Low := 10.25; Close := 10.25; Sector := "Unknown" |}.

Definition DDD_record : MovementRecord :=
  {| Symbol := "DDD.NS"; Movement := nan; Open := nan; High := 20.25;
     Low := 20; Close := 20.25; Sector := "Unknown" |}.

Definition five_past_nine : datetime :=
  {| toordinal := 739923; hour := 9; minute := 5 |}.

Definition fresh : Session.State :=
  {| Session.live := None; Session.all_symbols := None |}.

End Minutes.


(** * Properties *)

(** ** The exception monad *)

Lemma bind_Ok {A B : Type} (c : Exc A) (k : A -> Exc B) (b : B) :
  bind c k = Ok b -> exists a, c = Ok a /\ k a = Ok b.
Proof.
  destruct c as [a | e]; simpl; intros H.
  - exists a. split; [reflexivity | exact H].
  - discriminate H.
Qed.

Lemma bind_Raise_l {A B : Type} (c : Exc A) (k : A -> Exc B) (e : Exception) :
  c = Raise e -> bind c k = Raise e.
Proof. intros ->. reflexivity. Qed.

(** ** The date when none is given *)

Lemma market_closed_window (t : datetime) :
  (0 <= minute t < 60)%Z -> market_closed t = negb (in_session_window t).
Proof.
  intros Hm. unfold market_closed, in_session_window.
  rewrite !Z.gtb_ltb.
  destruct (Z.ltb_spec (hour t) 9); destruct (Z.eqb_spec (hour t) 9);
    destruct (Z.ltb_spec (minute t) 15); destruct (Z.ltb_spec 15 (hour t));
    destruct (Z.eqb_spec (hour t) 15); destruct (Z.ltb_spec 30 (minute t));
    destruct (Z.leb_spec (9 * 60 + 15) (hour t * 60 + minute t));
    destruct (Z.leb_spec (hour t * 60 + minute t) (15 * 60 + 30));
    simpl; try reflexivity; lia.
Qed.

(** C7: with no date given, the scan date is today's exactly when the clock
    reading in Asia/Kolkata lies in the window 09:15 to 15:30, both ends
    included, and the previous calendar day's otherwise. *)
Theorem default_date_follows_session (env : Env) :
  (0 <= minute (now env) < 60)%Z ->
  (resolve_date env None = toordinal (now env)
     <-> in_session_window (now env) = true)
  /\ (resolve_date env None = (toordinal (now env) - 1)%Z
     <-> in_session_window (now env) = false).
Proof.
  intros Hm. simpl. unfold default_date.
  rewrite (market_closed_window _ Hm).
  destruct (in_session_window (now env)); simpl; split; split;
    intros H; try reflexivity; try discriminate H; lia.
Qed.

Lemma default_date_at_closing_minute :
  (0 <= minute (now (Sample.env_closing Sample.daily)) < 60)%Z
  /\ resolve_date (Sample.env_closing Sample.daily) None
     = toordinal Sample.closing_minute
  /\ resolve_date (Sample.env_evening Sample.daily) None
     = (toordinal Sample.evening - 1)%Z.
Proof.
  split; [simpl; lia | split].
  - apply (default_date_follows_session (Sample.env_closing Sample.daily)).
    + simpl; lia.
    + reflexivity.
  - apply (default_date_follows_session (Sample.env_evening Sample.daily)).
    + simpl; lia.
    + reflexivity.
Defined.

(** ** Failures of the provider *)

Lemma provider_raise_try_block (env : Env) (symbols : list string)
    (min_pct max_pct : float) (date : Z) (sector_filter : option string)
    (e : Exception) :
  download env (make_request env symbols date) = Raise e ->
  try_block env symbols min_pct max_pct date sector_filter = Raise e.
Proof. intros H. unfold try_block. rewrite H. reflexivity. Qed.

Lemma raise_gives_empty (env : Env) (symbols : list string)
    (min_pct max_pct : float) (selected_date : option Z)
    (sector_filter : option string) (e : Exception) :
  try_block env symbols min_pct max_pct (resolve_date env selected_date)
    sector_filter = Raise e ->
  get_stocks_with_movement env symbols min_pct max_pct selected_date
    sector_filter = [].
Proof. intros H. unfold get_stocks_with_movement. rewrite H. reflexivity. Qed.

(** C5: an exception raised while a batch is retrieved or shaped gives the
    empty result for that batch, and the scan goes on with the batches that
    remain. *)
Theorem failed_batch_is_skipped (env : Env) (batch : list string)
    (min_pct max_pct : float) (date : Z) (sector_filter : option string)
    (e : Exception) (rest : list (list string))
    (results : list (list MovementRecord))
    (sort_values : list MovementRecord -> list MovementRecord) :
  try_block env batch min_pct max_pct date sector_filter = Raise e ->
  get_stocks_with_movement env batch min_pct max_pct (Some date) sector_filter = []
  /\ collect env min_pct max_pct date sector_filter (batch :: rest) results
     = collect env min_pct max_pct date sector_filter rest results
  /\ scan_batches env min_pct max_pct date sector_filter sort_values (batch :: rest)
     = scan_batches env min_pct max_pct date sector_filter sort_values rest.
Proof.
  intros H.
  assert (E : get_stocks_with_movement env batch min_pct max_pct (Some date)
                sector_filter = [])
    by (apply raise_gives_empty with (e := e); exact H).
  split; [exact E | split].
  - simpl. rewrite E. reflexivity.
  - unfold scan_batches. simpl. rewrite E. reflexivity.
Qed.

Lemma failed_batch_is_skipped_sample :
  try_block (Sample.env Sample.flaky) ["BAR.NS"] 3 20 Sample.date None
    = Raise ProviderError
  /\ scan_batches (Sample.env Sample.flaky) 3 20 Sample.date None (fun l => l)
       [["BAR.NS"]; ["FOO.NS"]]
     = Some [Sample.FOO_record].
Proof.
  split; [reflexivity |].
  transitivity (scan_batches (Sample.env Sample.flaky) 3 20 Sample.date None
                  (fun l => l) [["FOO.NS"]]).
  - apply (failed_batch_is_skipped (Sample.env Sample.flaky) ["BAR.NS"] 3 20
             Sample.date None ProviderError [["FOO.NS"]] [] (fun l => l)).
    reflexivity.
  - vm_compute. reflexivity.
Defined.

(** ** Empty input *)

Lemma no_data_gives_empty (response : Exc PriceTable) (min_pct max_pct : float)
    (sector_filter : option string) :
  no_data response ->
  match (data <- response ;; shape data min_pct max_pct sector_filter) with
  | Ok result => result
  | Raise _ => []
  end = [].
Proof.
  destruct response as [data | e]; simpl; intros H.
  - unfold shape. rewrite H. reflexivity.
  - reflexivity.
Qed.

(** C9: a scan the provider has no table for gives the empty sequence and
    raises nothing, and the scan loop over the empty ticker set collects
    nothing. *)
Theorem empty_scan_is_empty (env : Env) (symbols : list string)
    (min_pct max_pct : float) (selected_date : option Z)
    (sector_filter : option string) (date : Z)
    (sort_values : list MovementRecord -> list MovementRecord) :
  no_data (download env (make_request env symbols (resolve_date env selected_date))) ->
  get_stocks_with_movement env symbols min_pct max_pct selected_date
    sector_filter = []
  /\ collect env min_pct max_pct date sector_filter (batches_of batch_size []) [] = []
  /\ scan_now env min_pct max_pct date sector_filter sort_values [] = None.
Proof.
  intros H. split; [| split; reflexivity].
  unfold get_stocks_with_movement, try_block.
  apply no_data_gives_empty. exact H.
Qed.

Lemma empty_scan_is_empty_sample :
  no_data (download (Sample.env Sample.nothing)
             (make_request (Sample.env Sample.nothing) []
                (resolve_date (Sample.env Sample.nothing) None)))
  /\ get_stocks_with_movement (Sample.env Sample.nothing) [] 3 20 None None = [].
Proof.
  split; [reflexivity |].
  apply (empty_scan_is_empty (Sample.env Sample.nothing) [] 3 20 None None
           Sample.date (fun l => l)).
  reflexivity.
Defined.

(** ** Determinism *)

(** C10: two runs with the same ticker list, bounds, date and sector filter
    whose provider gives the same response return the same records in the
    same order, whatever the clock and the session store hold. *)
Theorem same_response_same_records (env1 env2 : Env) (symbols : list string)
    (min_pct max_pct : float) (selected_date : option Z)
    (sector_filter : option string) :
  download env1 (make_request env1 symbols (resolve_date env1 selected_date))
    = download env2 (make_request env2 symbols (resolve_date env2 selected_date)) ->
  get_stocks_with_movement env1 symbols min_pct max_pct selected_date sector_filter
    = get_stocks_with_movement env2 symbols min_pct max_pct selected_date sector_filter.
Proof.
  intros H. unfold get_stocks_with_movement, try_block. rewrite H. reflexivity.
Qed.

Lemma same_response_same_records_sample :
  download (Sample.env Sample.daily)
    (make_request (Sample.env Sample.daily) ["FOO.NS"; "BAR.NS"]
       (resolve_date (Sample.env Sample.daily) None))
  = download (Sample.env_evening Sample.daily)
      (make_request (Sample.env_evening Sample.daily) ["FOO.NS"; "BAR.NS"]
         (resolve_date (Sample.env_evening Sample.daily) None))
  /\ get_stocks_with_movement (Sample.env Sample.daily) ["FOO.NS"; "BAR.NS"]
    3 20 None None
  = get_stocks_with_movement (Sample.env_evening Sample.daily) ["FOO.NS"; "BAR.NS"]
    3 20 None None.
Proof.
  split; [reflexivity |].
  apply (same_response_same_records (Sample.env Sample.daily)
           (Sample.env_evening Sample.daily)).
  reflexivity.
Defined.

(** ** The loop over the columns *)

Section LoopFacts.
Variables opens closes highs lows filtered : DataFrame.

Lemma for_symbols_emitted (sector_filter : option string) :
    forall todo result out,
      for_symbols opens closes highs lows filtered sector_filter todo result
      = Ok out ->
      Forall (emitted_from opens closes highs lows filtered) result ->
      Forall (emitted_from opens closes highs lows filtered) out.
  Proof.
    induction todo as [| symbol rest IH]; cbn [for_symbols]; intros result out H Hres.
    - injection H as <-. exact Hres.
    - destruct (getitem filtered symbol) as [col |] eqn:Ecol; cbn [bind] in H;
        [| discriminate H].
      destruct (series_empty col); cbn [bind] in H; [exact (IH _ _ H Hres) |].
      destruct (iloc_last col) as [pct |] eqn:Epct; cbn [bind] in H;
        [| discriminate H].
      destruct (sector_rejected sector_filter "Unknown");
        [exact (IH _ _ H Hres) |].
      destruct (getitem opens symbol) as [so |] eqn:Eso; cbn [bind] in H;
        [| discriminate H].
      destruct (iloc_first so) as [o |] eqn:Eo; cbn [bind] in H; [| discriminate H].
      destruct (getitem highs symbol) as [sh |] eqn:Esh; cbn [bind] in H;
        [| discriminate H].
      destruct (iloc_last sh) as [h |] eqn:Eh; cbn [bind] in H; [| discriminate H].
      destruct (getitem lows symbol) as [sl |] eqn:Esl; cbn [bind] in H;
        [| discriminate H].
      destruct (iloc_last sl) as [l |] eqn:El; cbn [bind] in H; [| discriminate H].
      destruct (getitem closes symbol) as [sc |] eqn:Esc; cbn [bind] in H;
        [| discriminate H].
      destruct (iloc_last sc) as [c |] eqn:Ec; cbn [bind] in H; [| discriminate H].
      apply (IH _ _ H). apply Forall_app. split; [exact Hres |].
      constructor; [| constructor].
      unfold emitted_from; cbn [Symbol Movement Open High Low Close Sector].
      rewrite Ecol, Eso, Esh, Esl, Esc; cbn [bind].
      repeat split; try assumption.
      exists pct. split; [assumption | reflexivity].
  Qed.

  (** A filter that rejects the placeholder sector lets no pass of the loop
      append. *)
Lemma rejected_appends_nothing (sector_filter : option string) :
    sector_rejected sector_filter "Unknown" = true ->
    forall todo result out,
      for_symbols opens closes highs lows filtered sector_filter todo result
      = Ok out ->
      out = result.
  Proof.
    intros Hrej.
    induction todo as [| symbol rest IH]; cbn [for_symbols]; intros result out H.
    - injection H as <-. reflexivity.
    - destruct (getitem filtered symbol) as [col |]; cbn [bind] in H;
        [| discriminate H].
      destruct (series_empty col); cbn [bind] in H; [exact (IH _ _ H) |].
      destruct (iloc_last col) as [pct |]; cbn [bind] in H; [| discriminate H].
      rewrite Hrej in H. exact (IH _ _ H).
  Qed.

  (** A filter that accepts the placeholder sector is as good as none. *)
Lemma accepted_as_no_filter (sector_filter : option string) :
    sector_rejected sector_filter "Unknown" = false ->
    forall todo result,
      for_symbols opens closes highs lows filtered sector_filter todo result
      = for_symbols opens closes highs lows filtered None todo result.
  Proof.
    intros Hacc.
    induction todo as [| symbol rest IH]; cbn [for_symbols]; intros result.
    - reflexivity.
    - destruct (getitem filtered symbol) as [col |]; cbn [bind]; [| reflexivity].
      destruct (series_empty col); cbn [bind]; [apply IH |].
      destruct (iloc_last col) as [pct |]; cbn [bind]; [| reflexivity].
      rewrite Hacc. cbn [sector_rejected].
      destruct (getitem opens symbol) as [so |]; cbn [bind]; [| reflexivity].
      destruct (iloc_first so) as [o |]; cbn [bind]; [| reflexivity].
      destruct (getitem highs symbol) as [sh |]; cbn [bind]; [| reflexivity].
      destruct (iloc_last sh) as [h |]; cbn [bind]; [| reflexivity].
      destruct (getitem lows symbol) as [sl |]; cbn [bind]; [| reflexivity].
      destruct (iloc_last sl) as [l |]; cbn [bind]; [| reflexivity].
      destruct (getitem closes symbol) as [sc |]; cbn [bind]; [| reflexivity].
      destruct (iloc_last sc) as [c |]; cbn [bind]; [| reflexivity].
      apply IH.
  Qed.
End LoopFacts.

(** ** The sector placeholder *)

Lemma emitted_sector (opens closes highs lows filtered : DataFrame)
    (out : list MovementRecord) :
  Forall (emitted_from opens closes highs lows filtered) out ->
  Forall (fun r => Sector r = "Unknown") out.
Proof.
  apply Forall_impl. intros r H. apply H.
Qed.

(** C8, as the code has it: the Sector of every record is the placeholder
    "Unknown"; a sector filter that is absent, empty or "Unknown" changes
    nothing, and any other sector filter removes every record. *)
Theorem sector_placeholder_and_filter (env : Env) (symbols : list string)
    (min_pct max_pct : float) (selected_date : option Z)
    (sector_filter : option string) :
  Forall (fun r => Sector r = "Unknown")
    (get_stocks_with_movement env symbols min_pct max_pct selected_date sector_filter)
  /\ get_stocks_with_movement env symbols min_pct max_pct selected_date sector_filter
     = if sector_rejected sector_filter "Unknown" then []
       else get_stocks_with_movement env symbols min_pct max_pct selected_date None.
Proof.
  unfold get_stocks_with_movement, try_block.
  destruct (download env _) as [data | e]; cbn [bind];
    [| split; [constructor | destruct (sector_rejected _ _); reflexivity]].
  unfold shape.
  destruct (table_empty data);
    [split; [constructor | destruct (sector_rejected _ _); reflexivity] |].
  cbv zeta. split.
  - destruct (for_symbols _ _ _ _ _ sector_filter _ _) as [out | e] eqn:E;
      [| constructor].
    apply emitted_sector with (1 := for_symbols_emitted _ _ _ _ _ _ _ _ _ E (Forall_nil _)).
  - destruct (sector_rejected sector_filter "Unknown") eqn:Hrej.
    + destruct (for_symbols _ _ _ _ _ sector_filter _ _) as [out | e] eqn:E;
        [| reflexivity].
      exact (rejected_appends_nothing _ _ _ _ _ _ Hrej _ _ _ E).
    + rewrite (accepted_as_no_filter _ _ _ _ _ _ Hrej). reflexivity.
Qed.

(** C8 as stated fails: with the placeholder in place, the filter "IT" is
    no pass-through, it removes the one ticker of the scan. *)
Lemma sector_filter_removes_records :
  get_stocks_with_movement (Sample.env Sample.daily) ["FOO.NS"] 3 20
    (Some Sample.date) (Some "IT")
  <> get_stocks_with_movement (Sample.env Sample.daily) ["FOO.NS"] 3 20
       (Some Sample.date) None.
Proof. vm_compute. discriminate. Qed.

(** ** Which bars a record is read from *)

Lemma iloc_first_map {A : Type} (f : A -> float) (l : list A) (x : float) :
  iloc_first (map f l) = Ok x ->
  exists a, first_row l = Some a /\ x = f a.
Proof.
  destruct l as [| a t]; simpl; intros H; [discriminate H |].
  injection H as <-. exists a. split; reflexivity.
Qed.

Lemma iloc_last_map {A : Type} (f : A -> float) (l : list A) (x : float) :
  iloc_last (map f l) = Ok x ->
  exists a, last_row l = Some a /\ x = f a.
Proof.
  induction l as [| a t IH]; intros H; [discriminate H |].
  destruct t as [| b t'].
  - simpl in H. injection H as <-. exists a. split; reflexivity.
  - apply IH. exact H.
Qed.

Lemma getitem_field (name : string) (field : PriceBar -> float)
    (tickers : list string) (index : list (string -> PriceBar))
    (symbol : string) (col : Series) :
  getitem (field_frame name field (MultiIndexColumns tickers index)) symbol = Ok col ->
  col = map (fun r => field (r symbol)) index.
Proof.
  unfold getitem. cbn [field_frame columns rows].
  destruct (mem symbol tickers); intros H; [| discriminate H].
  injection H as <-. apply map_map.
Qed.

Lemma field_first (name : string) (field : PriceBar -> float)
    (tickers : list string) (index : list (string -> PriceBar))
    (symbol : string) (x : float) :
  (s <- getitem (field_frame name field (MultiIndexColumns tickers index)) symbol ;;
   iloc_first s) = Ok x ->
  exists row, first_row index = Some row /\ x = field (row symbol).
Proof.
  intros H. apply bind_Ok in H. destruct H as (col & Hcol & Hx).
  apply getitem_field in Hcol. subst col.
  apply iloc_first_map in Hx. exact Hx.
Qed.

Lemma field_last (name : string) (field : PriceBar -> float)
    (tickers : list string) (index : list (string -> PriceBar))
    (symbol : string) (x : float) :
  (s <- getitem (field_frame name field (MultiIndexColumns tickers index)) symbol ;;
   iloc_last s) = Ok x ->
  exists row, last_row index = Some row /\ x = field (row symbol).
Proof.
  intros H. apply bind_Ok in H. destruct H as (col & Hcol & Hx).
  apply getitem_field in Hcol. subst col.
  apply iloc_last_map in Hx. exact Hx.
Qed.

(** Every record of a call comes out of the loop over the frames cut from
    the table the provider gave. *)
Lemma records_emitted (env : Env) (symbols : list string)
    (min_pct max_pct : float) (selected_date : option Z)
    (sector_filter : option string) (data : PriceTable) :
  download env (make_request env symbols (resolve_date env selected_date)) = Ok data ->
  let opens := field_frame "Open" bar_open data in
  let closes := field_frame "Close" bar_close data in
  let highs := field_frame "High" bar_high data in
  let lows := field_frame "Low" bar_low data in
  Forall (emitted_from opens closes highs lows
            (filtered_of min_pct max_pct (movements_of highs lows)))
    (get_stocks_with_movement env symbols min_pct max_pct selected_date sector_filter).
Proof.
  intros H. cbv zeta. unfold get_stocks_with_movement, try_block.
  rewrite H. cbn [bind]. unfold shape.
  destruct (table_empty data); [constructor |]. cbv zeta.
  destruct (for_symbols _ _ _ _ _ sector_filter _ _) as [out | e] eqn:E;
    [| constructor].
  exact (for_symbols_emitted _ _ _ _ _ _ _ _ _ E (Forall_nil _)).
Qed.

(** C6, as the code has it: a record takes its Open from the first row of
    the provider's table and its High, Low and Close from the last row, in
    the column of its ticker, whether or not the ticker has a bar in that
    row; with a single row the two are the same bar. *)
Theorem open_from_first_row_rest_from_last (env : Env) (symbols : list string)
    (min_pct max_pct : float) (selected_date : option Z)
    (sector_filter : option string) (tickers : list string)
    (index : list (string -> PriceBar)) (r : MovementRecord) :
  download env (make_request env symbols (resolve_date env selected_date))
    = Ok (MultiIndexColumns tickers index) ->
  In r (get_stocks_with_movement env symbols min_pct max_pct selected_date
          sector_filter) ->
  exists first last,
    first_row index = Some first /\ last_row index = Some last
    /\ Open r = bar_open (first (Symbol r))
    /\ High r = bar_high (last (Symbol r))
    /\ Low r = bar_low (last (Symbol r))
    /\ Close r = bar_close (last (Symbol r))
    /\ (forall row, index = [row] -> first = row /\ last = row).
Proof.
  intros Hdata Hin.
  pose proof (records_emitted env symbols min_pct max_pct selected_date
                sector_filter _ Hdata) as Hall.
  cbv zeta in Hall. rewrite Forall_forall in Hall.
  destruct (Hall r Hin) as (_ & Ho & Hh & Hl & Hc & _).
  apply field_first in Ho. destruct Ho as (first & Hfirst & Ho).
  apply field_last in Hh. destruct Hh as (last & Hlast & Hh).
  apply field_last in Hl. destruct Hl as (last' & Hlast' & Hl).
  apply field_last in Hc. destruct Hc as (last'' & Hlast'' & Hc).
  rewrite Hlast in Hlast', Hlast''.
  injection Hlast' as <-. injection Hlast'' as <-.
  exists first, last. repeat split; try assumption.
  - subst index. simpl in Hfirst. injection Hfirst as <-. reflexivity.
  - subst index. simpl in Hlast. injection Hlast as <-. reflexivity.
Qed.

Lemma open_from_first_row_sample :
  download (Sample.env Sample.intraday)
    (make_request (Sample.env Sample.intraday) ["AAA.NS"; "BBB.NS"]
       (resolve_date (Sample.env Sample.intraday) (Some Sample.date)))
  = Ok (MultiIndexColumns ["AAA.NS"; "BBB.NS"] [Sample.minute1; Sample.minute2])
  /\ In Sample.AAA_record
       (get_stocks_with_movement (Sample.env Sample.intraday) ["AAA.NS"; "BBB.NS"]
          3 20 (Some Sample.date) None)
  /\ exists first last,
       first_row [Sample.minute1; Sample.minute2] = Some first
       /\ last_row [Sample.minute1; Sample.minute2] = Some last
       /\ Open Sample.AAA_record = bar_open (first (Symbol Sample.AAA_record))
       /\ High Sample.AAA_record = bar_high (last (Symbol Sample.AAA_record))
       /\ Low Sample.AAA_record = bar_low (last (Symbol Sample.AAA_record))
       /\ Close Sample.AAA_record = bar_close (last (Symbol Sample.AAA_record))
       /\ (forall row, [Sample.minute1; Sample.minute2] = [row] ->
           first = row /\ last = row).
Proof.
  assert (Hin : In Sample.AAA_record
            (get_stocks_with_movement (Sample.env Sample.intraday)
               ["AAA.NS"; "BBB.NS"] 3 20 (Some Sample.date) None))
    by (vm_compute; left; reflexivity).
  split; [reflexivity | split; [exact Hin |]].
  exact (open_from_first_row_rest_from_last (Sample.env Sample.intraday)
           ["AAA.NS"; "BBB.NS"] 3 20 (Some Sample.date) None
           ["AAA.NS"; "BBB.NS"] [Sample.minute1; Sample.minute2]
           Sample.AAA_record eq_refl Hin).
Defined.

(** C6 as stated fails: AAA.NS has no bar in the first minute, its first
    available bar opens at 100, and its record has no Open at all. *)
Lemma open_not_from_first_available_bar :
  ~ Forall (from_available_bars [Sample.minute1; Sample.minute2])
      (get_stocks_with_movement (Sample.env Sample.intraday) ["AAA.NS"; "BBB.NS"]
         3 20 (Some Sample.date) None).
Proof.
  assert (E : get_stocks_with_movement (Sample.env Sample.intraday)
                ["AAA.NS"; "BBB.NS"] 3 20 (Some Sample.date) None
              = [Sample.AAA_record; Sample.BBB_record])
    by (vm_compute; reflexivity).
  rewrite E. intros H. inversion H as [| r l HA _]; subst.
  destruct HA as (fb & lb & Hfb & _ & Ho & _).
  vm_compute in Hfb. injection Hfb as <-.
  apply (f_equal is_nan) in Ho. vm_compute in Ho. discriminate Ho.
Qed.

(** ** The band and the records that miss it *)

Lemma iloc_last_In (s : Series) (x : float) : iloc_last s = Ok x -> In x s.
Proof.
  induction s as [| a t IH]; intros H; [discriminate H |].
  destruct t as [| b t'].
  - simpl in H. injection H as <-. left. reflexivity.
  - right. apply IH. exact H.
Qed.

(** The movement of a record is the rounding of a cell of the masked frame:
    a value inside the band, or NaN. *)
Lemma emitted_movement_in_band_or_nan (opens closes highs lows movements : DataFrame)
    (min_pct max_pct : float) (r : MovementRecord) :
  emitted_from opens closes highs lows (filtered_of min_pct max_pct movements) r ->
  exists pct,
    Movement r = Float64.round2 pct
    /\ (in_band min_pct max_pct pct = true \/ pct = nan).
Proof.
  intros ((pct & Hpct & Hmov) & _).
  exists pct. split; [exact Hmov |].
  apply bind_Ok in Hpct. destruct Hpct as (col & Hcol & Hlast).
  unfold getitem in Hcol.
  destruct (mem (Symbol r) (columns (filtered_of min_pct max_pct movements)));
    [| discriminate Hcol].
  injection Hcol as <-.
  apply iloc_last_In in Hlast. apply in_map_iff in Hlast.
  destruct Hlast as (row & <- & Hrow).
  cbn [filtered_of dropna_all where_ rows columns] in Hrow.
  apply filter_In in Hrow. destruct Hrow as (Hrow & _).
  apply in_map_iff in Hrow. destruct Hrow as (row0 & <- & _).
  destruct (in_band min_pct max_pct (row0 (Symbol r))) eqn:Hband.
  - left. exact Hband.
  - right. reflexivity.
Qed.

(** C1 on the code: scanned next to FOO.NS, which is inside the band [3, 20],
    BAR.NS (high 130, low 100) gets a record whose movement is NaN, not the
    30.0 that [(high - low) / low * 100] rounds to. *)
Theorem movement_lost_outside_band :
  get_stocks_with_movement (Sample.env Sample.daily) ["FOO.NS"; "BAR.NS"] 3 20
    (Some Sample.date) None
  = [Sample.FOO_record; Sample.BAR_record]
  /\ (0 <? bar_low Sample.BAR)%float = true
  /\ is_nan (bar_high Sample.BAR) = false
  /\ Float64.round2 (movement_pct Sample.BAR) = 30%float
  /\ is_nan (Movement Sample.BAR_record) = true.
Proof. repeat split; vm_compute; reflexivity. Qed.

(** C2 on the code: the output of a scan with band [3, 20] holds a record,
    that of BAR.NS, whose movement is not inside the band. *)
Theorem record_outside_band :
  exists r,
    In r (get_stocks_with_movement (Sample.env Sample.daily) ["FOO.NS"; "BAR.NS"]
            3 20 (Some Sample.date) None)
    /\ Symbol r = "BAR.NS"
    /\ in_band 3 20 (Movement r) = false.
Proof.
  exists Sample.BAR_record. split; [| split; reflexivity].
  vm_compute. right. left. reflexivity.
Qed.

(** C3 on the code: no exception is raised, but scanned next to FOO.NS the
    ticker BAZ.NS with low 0 and the ticker QUX.NS with no bar at all are
    both in the output; on their own they are not. *)
Theorem zero_low_and_absent_tickers_emitted :
  (bar_low Sample.BAZ =? 0)%float = true
  /\ bar_absent (Sample.day "QUX.NS") = true
  /\ try_block (Sample.env Sample.daily) ["FOO.NS"; "BAZ.NS"; "QUX.NS"] 3 20
       Sample.date None
     = Ok [Sample.FOO_record; Sample.BAZ_record; Sample.QUX_record]
  /\ get_stocks_with_movement (Sample.env Sample.daily)
       ["FOO.NS"; "BAZ.NS"; "QUX.NS"] 3 20 (Some Sample.date) None
     = [Sample.FOO_record; Sample.BAZ_record; Sample.QUX_record]
  /\ get_stocks_with_movement (Sample.env Sample.daily) ["BAZ.NS"; "QUX.NS"] 3 20
       (Some Sample.date) None
     = [].
Proof. repeat split; vm_compute; reflexivity. Qed.

(** ** Batches *)

Lemma scan_batches_length (env : Env) (min_pct max_pct : float) (date : Z)
    (sector_filter : option string)
    (sort_values : list MovementRecord -> list MovementRecord)
    (batches : list (list string)) (final : list MovementRecord) :
  (forall l, Permutation (sort_values l) l) ->
  scan_batches env min_pct max_pct date sector_filter sort_values batches = Some final ->
  List.length final
  = List.length (List.concat (collect env min_pct max_pct date sector_filter batches [])).
Proof.
  intros Hperm. unfold scan_batches.
  destruct (collect env min_pct max_pct date sector_filter batches [])
    as [| df results]; intros H; [discriminate H |].
  injection H as <-. apply Permutation_length. apply Hperm.
Qed.

(** C4 on the code: for the listing of 501 tickers, the scan in batches of
    500 ends with the one record of FOO.NS, and the scan of the whole listing
    at once ends with another table, however the final sort orders it. *)
Theorem batches_change_the_scan
    (sort_values : list MovementRecord -> list MovementRecord) :
  (forall l, Permutation (sort_values l) l) ->
  scan_now (Sample.env Sample.daily) 3 20 Sample.date None sort_values
    Sample.listing
  = Some (sort_values [Sample.FOO_record])
  /\ scan_batches (Sample.env Sample.daily) 3 20 Sample.date None sort_values
       [Sample.listing]
     <> scan_now (Sample.env Sample.daily) 3 20 Sample.date None sort_values
          Sample.listing.
Proof.
  intros Hperm.
  assert (E : scan_now (Sample.env Sample.daily) 3 20 Sample.date None sort_values
                Sample.listing
              = Some (sort_values [Sample.FOO_record]))
    by (vm_compute; reflexivity).
  split; [exact E |].
  rewrite E. intros H.
  apply scan_batches_length in H; [| exact Hperm].
  rewrite (Permutation_length (Hperm _)) in H.
  vm_compute in H. discriminate H.
Qed.

Lemma batches_change_the_scan_unsorted :
  (forall l : list MovementRecord, Permutation ((fun l => l) l) l)
  /\ scan_batches (Sample.env Sample.daily) 3 20 Sample.date None (fun l => l)
       [Sample.listing]
     <> scan_now (Sample.env Sample.daily) 3 20 Sample.date None (fun l => l)
          Sample.listing.
Proof.
  split; [intros l; apply Permutation_refl |].
  apply (batches_change_the_scan (fun l => l)).
  intros l. apply Permutation_refl.
Defined.

(** ** Nothing raises on a per-ticker table *)

Lemma labels_eqb_refl (l : list string) : labels_eqb l l = true.
Proof.
  induction l as [| a t IH]; simpl; [reflexivity |].
  rewrite String.eqb_refl. exact IH.
Qed.

Lemma align_same (c : list string) : align c c = c.
Proof. unfold align. rewrite labels_eqb_refl. reflexivity. Qed.

Lemma mem_In (s : string) (l : list string) : In s l -> mem s l = true.
Proof.
  intros H. apply existsb_exists. exists s. split; [exact H |].
  apply String.eqb_refl.
Qed.

Lemma iloc_last_total (s : Series) :
  series_empty s = false -> exists x, iloc_last s = Ok x.
Proof.
  induction s as [| a t IH]; intros H; [discriminate H |].
  destruct t as [| b t'].
  - exists a. reflexivity.
  - apply IH. reflexivity.
Qed.

Lemma iloc_first_total (s : Series) :
  series_empty s = false -> exists x, iloc_first s = Ok x.
Proof.
  destruct s as [| a t]; intros H; [discriminate H |].
  exists a. reflexivity.
Qed.

Lemma getitem_total (df : DataFrame) (symbol : string) :
  In symbol (columns df) ->
  getitem df symbol = Ok (map (fun r => r symbol) (rows df)).
Proof. intros H. unfold getitem. rewrite (mem_In _ _ H). reflexivity. Qed.

Lemma column_not_empty (df : DataFrame) (symbol : string) :
  rows df <> [] -> series_empty (map (fun r => r symbol) (rows df)) = false.
Proof. destruct (rows df); [congruence | reflexivity]. Qed.

Section LoopTotal.
Variables opens closes highs lows filtered : DataFrame.
Variable sector_filter : option string.
Variable tickers : list string.

Hypothesis opens_cols : columns opens = tickers.
Hypothesis closes_cols : columns closes = tickers.
Hypothesis highs_cols : columns highs = tickers.
Hypothesis lows_cols : columns lows = tickers.
Hypothesis filtered_cols : columns filtered = tickers.
Hypothesis opens_rows : rows opens <> [].
Hypothesis closes_rows : rows closes <> [].
Hypothesis highs_rows : rows highs <> [].
Hypothesis lows_rows : rows lows <> [].

Lemma for_symbols_total :
    forall todo result,
      incl todo tickers ->
      exists out,
        for_symbols opens closes highs lows filtered sector_filter todo result
        = Ok out.
  Proof.
    induction todo as [| symbol rest IH]; cbn [for_symbols]; intros result Hincl.
    - exists result. reflexivity.
    - assert (Hs : In symbol tickers) by (apply Hincl; left; reflexivity).
      assert (Hrest : incl rest tickers)
        by (intros s Hin; apply Hincl; right; exact Hin).
      rewrite (getitem_total filtered symbol) by (rewrite filtered_cols; exact Hs).
      cbn [bind].
      destruct (series_empty (map (fun r => r symbol) (rows filtered))) eqn:Eempty;
        cbn [bind]; [apply IH; exact Hrest |].
      destruct (iloc_last_total _ Eempty) as (pct & ->). cbn [bind].
      destruct (sector_rejected sector_filter "Unknown"); [apply IH; exact Hrest |].
      rewrite (getitem_total opens symbol) by (rewrite opens_cols; exact Hs).
      rewrite (getitem_total highs symbol) by (rewrite highs_cols; exact Hs).
      rewrite (getitem_total lows symbol) by (rewrite lows_cols; exact Hs).
      rewrite (getitem_total closes symbol) by (rewrite closes_cols; exact Hs).
      cbn [bind].
      destruct (iloc_first_total _ (column_not_empty opens symbol opens_rows))
        as (o & ->).
      destruct (iloc_last_total _ (column_not_empty highs symbol highs_rows))
        as (h & ->).
      destruct (iloc_last_total _ (column_not_empty lows symbol lows_rows))
        as (l & ->).
      destruct (iloc_last_total _ (column_not_empty closes symbol closes_rows))
        as (c & ->).
      cbn [bind]. apply IH. exact Hrest.
  Qed.
End LoopTotal.

(** On a table with per-ticker columns the shaping of lines 47-81 raises
    nothing, whatever the bars hold: zero lows and absent values included. *)
Lemma shape_never_raises (tickers : list string) (index : list (string -> PriceBar))
    (min_pct max_pct : float) (sector_filter : option string) :
  exists out,
    shape (MultiIndexColumns tickers index) min_pct max_pct sector_filter = Ok out.
Proof.
  unfold shape.
  destruct (table_empty (MultiIndexColumns tickers index)) eqn:Eempty;
    [exists []; reflexivity |].
  assert (Hidx : index <> []).
  { intros ->. destruct tickers; discriminate Eempty. }
  assert (Hrows : forall field : PriceBar -> float,
             map (fun (r : string -> PriceBar) (s : string) => field (r s)) index <> []).
  { intros field H. apply map_eq_nil in H. exact (Hidx H). }
  cbv zeta.
  assert (Hcols : columns (filtered_of min_pct max_pct
                    (movements_of (field_frame "High" bar_high (MultiIndexColumns tickers index))
                       (field_frame "Low" bar_low (MultiIndexColumns tickers index))))
                  = tickers).
  { cbn [filtered_of movements_of dropna_all where_ mul_scalar div_frame sub_frame
         binop field_frame columns].
    rewrite !align_same. reflexivity. }
  rewrite Hcols.
  apply for_symbols_total with (tickers := tickers);
    try reflexivity; try exact Hcols; try apply Hrows.
  apply incl_refl.
Qed.

(** A one-ticker frame with plain field columns yields no record at all:
    [highs - lows] pairs the column High with the column Low, which share
    no label. *)
Remark flat_frame_gives_nothing :
  shape (FlatColumns [Sample.FOO]) 3 20 None = Ok []
  /\ in_band 3 20 (movement_pct Sample.FOO) = true.
Proof. split; vm_compute; reflexivity. Qed.

(** ** What a scan of one daily row returns *)

Lemma row_has_value_ext (cols : list string) (r1 r2 : string -> float) :
  (forall s, In s cols -> r1 s = r2 s) ->
  row_has_value cols r1 = row_has_value cols r2.
Proof.
  unfold row_has_value. induction cols as [| a t IH]; intros H; [reflexivity |].
  simpl. rewrite (H a) by (left; reflexivity).
  rewrite IH; [reflexivity |]. intros s Hs. apply H. right. exact Hs.
Qed.

Lemma row_without_value_masked (cond : float -> bool) (cols : list string)
    (r : string -> float) :
  row_has_value cols r = false ->
  row_has_value cols (fun s => if cond (r s) then r s else nan) = false.
Proof.
  unfold row_has_value. induction cols as [| a t IH]; intros H; [reflexivity |].
  simpl in *. apply orb_false_iff in H. destruct H as (Ha & Ht).
  rewrite (IH Ht), orb_false_r.
  destruct (cond (r a)); [exact Ha | reflexivity].
Qed.

Section OneRow.
Variables opens closes highs lows filtered : DataFrame.
Variable sector_filter : option string.
Variable tickers : list string.
Variables o c h l : string -> float.

Hypothesis opens_frame : columns opens = tickers /\ rows opens = [o].
Hypothesis closes_frame : columns closes = tickers /\ rows closes = [c].
Hypothesis highs_frame : columns highs = tickers /\ rows highs = [h].
Hypothesis lows_frame : columns lows = tickers /\ rows lows = [l].
Hypothesis filtered_cols : columns filtered = tickers.

Lemma for_symbols_no_row :
    rows filtered = [] ->
    forall todo result,
      incl todo tickers ->
      for_symbols opens closes highs lows filtered sector_filter todo result
      = Ok result.
  Proof.
    intros Hrows.
    induction todo as [| symbol rest IH]; cbn [for_symbols]; intros result Hincl.
    - reflexivity.
    - rewrite (getitem_total filtered symbol)
        by (rewrite filtered_cols; apply Hincl; left; reflexivity).
      rewrite Hrows. cbn [map series_empty bind].
      apply IH. intros s Hs. apply Hincl. right. exact Hs.
  Qed.

Lemma for_symbols_one_row (f : string -> float) :
    rows filtered = [f] ->
    sector_rejected sector_filter "Unknown" = false ->
    forall todo result,
      incl todo tickers ->
      for_symbols opens closes highs lows filtered sector_filter todo result
      = Ok (result
            ++ map (fun s => {| Symbol := s; Movement := Float64.round2 (f s);
                                Open := o s; High := h s; Low := l s;
                                Close := c s; Sector := "Unknown" |}) todo).
  Proof.
    intros Hrows Hacc.
    destruct opens_frame as (Hoc & Hor), closes_frame as (Hcc & Hcr),
      highs_frame as (Hhc & Hhr), lows_frame as (Hlc & Hlr).
    induction todo as [| symbol rest IH]; cbn [for_symbols]; intros result Hincl.
    - rewrite app_nil_r. reflexivity.
    - assert (Hs : In symbol tickers) by (apply Hincl; left; reflexivity).
      rewrite (getitem_total filtered symbol) by (rewrite filtered_cols; exact Hs).
      rewrite (getitem_total opens symbol) by (rewrite Hoc; exact Hs).
      rewrite (getitem_total highs symbol) by (rewrite Hhc; exact Hs).
      rewrite (getitem_total lows symbol) by (rewrite Hlc; exact Hs).
      rewrite (getitem_total closes symbol) by (rewrite Hcc; exact Hs).
      rewrite Hrows, Hor, Hhr, Hlr, Hcr, Hacc.
      cbn [map series_empty iloc_last iloc_first bind].
      rewrite IH by (intros s Hin; apply Hincl; right; exact Hin).
      rewrite <- app_assoc. reflexivity.
  Qed.
End OneRow.

Lemma movements_row (tickers : list string) (day : string -> PriceBar) :
  exists cell,
    rows (mul_scalar
            (div_frame
               (sub_frame (field_frame "High" bar_high (MultiIndexColumns tickers [day]))
                  (field_frame "Low" bar_low (MultiIndexColumns tickers [day])))
               (field_frame "Low" bar_low (MultiIndexColumns tickers [day])))
            100%float)
    = [cell]
    /\ forall s, In s tickers -> cell s = movement_pct (day s).
Proof.
  eexists. split.
  - cbn [rows mul_scalar div_frame sub_frame binop zip_rows field_frame map columns].
    reflexivity.
  - intros s Hs. cbv beta. rewrite align_same, !(mem_In _ _ Hs). reflexivity.
Qed.

(** A table of one row: when no ticker of the batch moved inside the band
    the result is empty, and as soon as one did, every ticker of the batch
    gets a record, with NaN for movement unless it is inside the band
    itself. *)
Lemma daily_shape (tickers : list string) (day : string -> PriceBar)
    (min_pct max_pct : float) (sector_filter : option string) :
  sector_rejected sector_filter "Unknown" = false ->
  shape (MultiIndexColumns tickers [day]) min_pct max_pct sector_filter
  = Ok (if any_in_band min_pct max_pct day tickers
        then map (daily_record min_pct max_pct day) tickers
        else []).
Proof.
  intros Hacc. unfold shape.
  destruct tickers as [| t0 rest] eqn:Et; [reflexivity |].
  change (table_empty (MultiIndexColumns (t0 :: rest) [day])) with false.
  cbv iota zeta. rewrite <- Et. clear Et.
  destruct (movements_row tickers day) as (cell & Hcell & Hpct).
  set (highs := field_frame "High" bar_high (MultiIndexColumns tickers [day])) in *.
  set (lows := field_frame "Low" bar_low (MultiIndexColumns tickers [day])) in *.
  set (filtered := filtered_of min_pct max_pct (movements_of highs lows)).
  set (masked := fun s => if in_band min_pct max_pct (cell s) then cell s else nan).
  assert (Hcols : columns filtered = tickers).
  { subst filtered highs lows.
    cbn [filtered_of movements_of dropna_all where_ mul_scalar div_frame sub_frame
         binop field_frame columns].
    rewrite !align_same. reflexivity. }
  assert (Hmasked : forall s, In s tickers ->
                      masked s = masked_movement min_pct max_pct (day s)).
  { intros s Hs. subst masked. cbv beta. rewrite (Hpct s Hs). reflexivity. }
  assert (Hrows : rows filtered
                  = if any_in_band min_pct max_pct day tickers then [masked] else []).
  { unfold any_in_band.
    rewrite <- (row_has_value_ext tickers masked _ Hmasked).
    subst filtered. unfold filtered_of, movements_of.
    cbn [dropna_all where_ rows columns]. rewrite Hcell.
    replace (columns (mul_scalar (div_frame (sub_frame highs lows) lows) 100%float))
      with tickers
      by (subst highs lows;
          cbn [mul_scalar div_frame sub_frame binop field_frame columns];
          rewrite !align_same; reflexivity).
    cbn [filter].
    destruct (row_has_value tickers cell) eqn:Ecell; cbn [map filter].
    - fold masked. destruct (row_has_value tickers masked); reflexivity.
    - subst masked.
      rewrite (row_without_value_masked (in_band min_pct max_pct) _ _ Ecell).
      reflexivity. }
  rewrite Hcols.
  destruct (any_in_band min_pct max_pct day tickers).
  - rewrite (for_symbols_one_row _ _ _ _ filtered sector_filter tickers
               (fun s => bar_open (day s)) (fun s => bar_close (day s))
               (fun s => bar_high (day s)) (fun s => bar_low (day s)))
      with (f := masked);
      try (split; reflexivity); try assumption; try apply incl_refl.
    cbn [app]. f_equal. apply map_ext_in. intros s Hs.
    unfold daily_record. rewrite (Hmasked s Hs). reflexivity.
  - apply (for_symbols_no_row _ _ _ _ filtered sector_filter tickers);
      try assumption; apply incl_refl.
Qed.

Corollary daily_scan (env : Env) (symbols : list string) (min_pct max_pct : float)
    (selected_date : option Z) (sector_filter : option string)
    (tickers : list string) (day : string -> PriceBar) :
  download env (make_request env symbols (resolve_date env selected_date))
    = Ok (MultiIndexColumns tickers [day]) ->
  sector_rejected sector_filter "Unknown" = false ->
  get_stocks_with_movement env symbols min_pct max_pct selected_date sector_filter
  = if any_in_band min_pct max_pct day tickers
    then map (daily_record min_pct max_pct day) tickers
    else [].
Proof.
  intros Hdata Hacc. unfold get_stocks_with_movement, try_block.
  rewrite Hdata. cbn [bind]. rewrite (daily_shape _ _ _ _ _ Hacc). reflexivity.
Qed.

(** ** NaN and the band *)

Lemma is_nan_spec (x : float) :
  is_nan x = true <-> FloatOps.Prim2SF x = SpecFloat.S754_nan.
Proof.
  unfold is_nan. rewrite FloatAxioms.eqb_spec.
  destruct (FloatOps.Prim2SF x) as [s | s | | s m e]; simpl.
  - destruct s; split; discriminate.
  - destruct s; split; discriminate.
  - split; reflexivity.
  - unfold SpecFloat.SFeqb, SpecFloat.SFcompare.
    rewrite Z.compare_refl, Pos.compare_refl. destruct s; split; discriminate.
Qed.

(** NaN survives the division and the scaling. *)
Lemma nan_movement (x : float) : is_nan (nan / x * 100)%float = true.
Proof.
  apply is_nan_spec. rewrite FloatAxioms.mul_spec, FloatAxioms.div_spec.
  change (FloatOps.Prim2SF nan) with SpecFloat.S754_nan.
  destruct (FloatOps.Prim2SF x) as [s | s | | s m e]; reflexivity.
Qed.

(** NaN is in no band. *)
Lemma in_band_not_nan (min_pct max_pct x : float) :
  in_band min_pct max_pct x = true -> is_nan x = false.
Proof.
  unfold in_band. intros H. apply andb_true_iff in H. destruct H as (H & _).
  destruct (is_nan x) eqn:E; [| reflexivity].
  apply is_nan_spec in E. rewrite FloatAxioms.leb_spec, E in H.
  destruct (FloatOps.Prim2SF min_pct) as [s | s | | s m e]; discriminate H.
Qed.

Lemma any_in_band_iff (min_pct max_pct : float) (day : string -> PriceBar)
    (tickers : list string) :
  any_in_band min_pct max_pct day tickers = true
  <-> exists s, In s tickers /\ in_band min_pct max_pct (movement_pct (day s)) = true.
Proof.
  unfold any_in_band, row_has_value. rewrite existsb_exists.
  split; intros (s & Hs & H); exists s; (split; [exact Hs |]).
  - unfold masked_movement in H. cbv zeta in H.
    destruct (in_band min_pct max_pct (movement_pct (day s))); [reflexivity |].
    discriminate H.
  - unfold masked_movement. cbv zeta. rewrite H.
    rewrite (in_band_not_nan _ _ _ H). reflexivity.
Qed.

(** On one daily row, a ticker inside the band gets the record the
    specification describes. *)
Lemma in_band_ticker_emitted (env : Env) (symbols : list string)
    (min_pct max_pct : float) (selected_date : option Z)
    (sector_filter : option string) (tickers : list string)
    (day : string -> PriceBar) (s : string) :
  download env (make_request env symbols (resolve_date env selected_date))
    = Ok (MultiIndexColumns tickers [day]) ->
  sector_rejected sector_filter "Unknown" = false ->
  In s tickers ->
  in_band min_pct max_pct (movement_pct (day s)) = true ->
  In {| Symbol := s;
        Movement := Float64.round2 (movement_pct (day s));
        Open := bar_open (day s); High := bar_high (day s);
        Low := bar_low (day s); Close := bar_close (day s);
        Sector := "Unknown" |}
     (get_stocks_with_movement env symbols min_pct max_pct selected_date
        sector_filter).
Proof.
  intros Hdata Hacc Hs Hband.
  rewrite (daily_scan _ _ _ _ _ _ _ _ Hdata Hacc).
  replace (any_in_band min_pct max_pct day tickers) with true
    by (symmetry; apply any_in_band_iff; exists s; split; assumption).
  apply in_map_iff. exists s. split; [| exact Hs].
  unfold daily_record, masked_movement. cbv zeta. rewrite Hband. reflexivity.
Qed.

(** On one daily row, a ticker outside the band, whatever its bar holds,
    is emitted with NaN for movement as soon as another ticker of the
    batch is inside the band. *)
Lemma out_of_band_ticker_emitted (env : Env) (symbols : list string)
    (min_pct max_pct : float) (selected_date : option Z)
    (sector_filter : option string) (tickers : list string)
    (day : string -> PriceBar) (a b : string) :
  download env (make_request env symbols (resolve_date env selected_date))
    = Ok (MultiIndexColumns tickers [day]) ->
  sector_rejected sector_filter "Unknown" = false ->
  In a tickers ->
  in_band min_pct max_pct (movement_pct (day a)) = true ->
  In b tickers ->
  in_band min_pct max_pct (movement_pct (day b)) = false ->
  In {| Symbol := b;
        Movement := nan;
        Open := bar_open (day b); High := bar_high (day b);
        Low := bar_low (day b); Close := bar_close (day b);
        Sector := "Unknown" |}
     (get_stocks_with_movement env symbols min_pct max_pct selected_date
        sector_filter).
Proof.
  intros Hdata Hacc Ha Hband Hb Hout.
  rewrite (daily_scan _ _ _ _ _ _ _ _ Hdata Hacc).
  replace (any_in_band min_pct max_pct day tickers) with true
    by (symmetry; apply any_in_band_iff; exists a; split; assumption).
  apply in_map_iff. exists b. split; [| exact Hb].
  unfold daily_record, masked_movement. cbv zeta. rewrite Hout. reflexivity.
Qed.

(** ** Tables with plain field columns *)

Lemma flat_cells_nan (index : list PriceBar) :
  Forall (fun r : string -> float => forall s, is_nan (r s) = true)
    (rows (mul_scalar
             (div_frame
                (sub_frame (field_frame "High" bar_high (FlatColumns index))
                   (field_frame "Low" bar_low (FlatColumns index)))
                (field_frame "Low" bar_low (FlatColumns index)))
             100%float)).
Proof.
  induction index as [| b t IH].
  - constructor.
  - cbn [rows mul_scalar div_frame sub_frame binop zip_rows field_frame map columns]
      in *.
    constructor; [| exact IH].
    intros s. destruct (String.eqb_spec s "Low") as [-> | Hs].
    + change (is_nan (nan / bar_low b * 100)%float = true). apply nan_movement.
    + unfold mem at 2. cbn [existsb].
      apply String.eqb_neq in Hs. rewrite Hs, andb_false_r. reflexivity.
Qed.

Lemma row_of_nan (cols : list string) (r : string -> float) :
  (forall s, is_nan (r s) = true) -> row_has_value cols r = false.
Proof.
  intros Hr. unfold row_has_value.
  induction cols as [| a t IH]; [reflexivity |].
  cbn [existsb]. rewrite (Hr a), IH. reflexivity.
Qed.

Lemma rows_of_nan_dropped (cols : list string) (rs : list (string -> float)) :
  Forall (fun r : string -> float => forall s, is_nan (r s) = true) rs ->
  filter (row_has_value cols) rs = [].
Proof.
  induction 1 as [| r rs Hr _ IH]; [reflexivity |].
  cbn [filter].
  rewrite (row_of_nan cols r Hr). exact IH.
Qed.

(** The shaping of a table with plain field columns gives no record,
    whatever the bars: High minus Low pairs two columns with different
    labels, so every movement is NaN. *)
Lemma flat_shape (index : list PriceBar) (min_pct max_pct : float)
    (sector_filter : option string) :
  shape (FlatColumns index) min_pct max_pct sector_filter = Ok [].
Proof.
  unfold shape. destruct (table_empty (FlatColumns index)); [reflexivity |].
  cbv zeta.
  apply (for_symbols_no_row _ _ _ _ _ sector_filter _ eq_refl);
    [| apply incl_refl].
  unfold filtered_of, movements_of. cbn [dropna_all where_ rows columns].
  rewrite (rows_of_nan_dropped _ _ (flat_cells_nan index)). reflexivity.
Qed.

(** ** What a scan of a per-ticker table returns *)

Lemma first_row_map {A B : Type} (g : A -> B) (l : list A) :
  first_row (map g l) = option_map g (first_row l).
Proof. destruct l; reflexivity. Qed.

Lemma last_row_map {A B : Type} (g : A -> B) (l : list A) :
  last_row (map g l) = option_map g (last_row l).
Proof.
  induction l as [| a t IH]; [reflexivity |].
  destruct t as [| b t']; [reflexivity |].
  exact IH.
Qed.

Lemma last_row_None {A : Type} (l : list A) : last_row l = None -> l = [].
Proof.
  induction l as [| a t IH]; intros H; [reflexivity |].
  destruct t as [| b t']; [discriminate H |].
  discriminate (IH H).
Qed.

Lemma iloc_first_row (rs : list (string -> float)) (r : string -> float) (s : string) :
  first_row rs = Some r -> iloc_first (map (fun row => row s) rs) = Ok (r s).
Proof.
  destruct rs as [| a t]; intros H; [discriminate H |].
  injection H as <-. reflexivity.
Qed.

Lemma iloc_last_row (rs : list (string -> float)) (r : string -> float) (s : string) :
  last_row rs = Some r -> iloc_last (map (fun row => row s) rs) = Ok (r s).
Proof.
  induction rs as [| a t IH]; intros H; [discriminate H |].
  destruct t as [| b t'].
  - injection H as <-. reflexivity.
  - apply IH. exact H.
Qed.

Lemma last_row_not_empty (rs : list (string -> float)) (r : string -> float) (s : string) :
  last_row rs = Some r -> series_empty (map (fun row => row s) rs) = false.
Proof. destruct rs; intros H; [discriminate H | reflexivity]. Qed.

Section ManyRows.
Variables opens closes highs lows filtered : DataFrame.
Variable sector_filter : option string.
Variable tickers : list string.
Variables o c h l f : string -> float.

Hypothesis opens_frame : columns opens = tickers /\ first_row (rows opens) = Some o.
Hypothesis closes_frame : columns closes = tickers /\ last_row (rows closes) = Some c.
Hypothesis highs_frame : columns highs = tickers /\ last_row (rows highs) = Some h.
Hypothesis lows_frame : columns lows = tickers /\ last_row (rows lows) = Some l.
Hypothesis filtered_frame :
    columns filtered = tickers /\ last_row (rows filtered) = Some f.
Hypothesis accepted : sector_rejected sector_filter "Unknown" = false.

Lemma for_symbols_rows :
    forall todo result,
      incl todo tickers ->
      for_symbols opens closes highs lows filtered sector_filter todo result
      = Ok (result
            ++ map (fun s => {| Symbol := s; Movement := Float64.round2 (f s);
                                Open := o s; High := h s; Low := l s;
                                Close := c s; Sector := "Unknown" |}) todo).
  Proof.
    destruct opens_frame as (Hoc & Hor), closes_frame as (Hcc & Hcr),
      highs_frame as (Hhc & Hhr), lows_frame as (Hlc & Hlr),
      filtered_frame as (Hfc & Hfr).
    induction todo as [| symbol rest IH]; cbn [for_symbols]; intros result Hincl.
    - rewrite app_nil_r. reflexivity.
    - assert (Hs : In symbol tickers) by (apply Hincl; left; reflexivity).
      rewrite (getitem_total filtered symbol) by (rewrite Hfc; exact Hs).
      rewrite (getitem_total opens symbol) by (rewrite Hoc; exact Hs).
      rewrite (getitem_total highs symbol) by (rewrite Hhc; exact Hs).
      rewrite (getitem_total lows symbol) by (rewrite Hlc; exact Hs).
      rewrite (getitem_total closes symbol) by (rewrite Hcc; exact Hs).
      cbn [bind].
      rewrite (last_row_not_empty _ _ symbol Hfr). cbn [bind].
      rewrite (iloc_last_row _ _ symbol Hfr). cbn [bind].
      rewrite accepted.
      rewrite (iloc_first_row _ _ symbol Hor), (iloc_last_row _ _ symbol Hhr),
        (iloc_last_row _ _ symbol Hlr), (iloc_last_row _ _ symbol Hcr).
      cbn [bind].
      rewrite IH by (intros s Hin; apply Hincl; right; exact Hin).
      rewrite <- app_assoc. reflexivity.
  Qed.
End ManyRows.

(** The cell of a bar in the frame of movements. *)
Lemma movements_rows (tickers : list string) (index : list (string -> PriceBar)) :
  exists cell : (string -> PriceBar) -> string -> float,
    rows (mul_scalar
            (div_frame
               (sub_frame (field_frame "High" bar_high (MultiIndexColumns tickers index))
                  (field_frame "Low" bar_low (MultiIndexColumns tickers index)))
               (field_frame "Low" bar_low (MultiIndexColumns tickers index)))
            100%float)
    = map cell index
    /\ forall row s, In s tickers -> cell row s = movement_pct (row s).
Proof.
  exists (fun row s =>
            ((if mem s (align tickers tickers) && mem s tickers
              then ((if mem s tickers && mem s tickers
                     then bar_high (row s) - bar_low (row s) else nan)
                    / bar_low (row s))
              else nan) * 100)%float).
  split.
  - cbn [rows mul_scalar div_frame sub_frame binop field_frame columns].
    induction index as [| row t IH]; [reflexivity |].
    cbn [map zip_rows]. f_equal. exact IH.
  - intros row s Hs. rewrite align_same, !(mem_In _ _ Hs). reflexivity.
Qed.

Lemma masked_rows (min_pct max_pct : float) (tickers : list string)
    (cell : (string -> PriceBar) -> string -> float)
    (index : list (string -> PriceBar)) :
  (forall row s, In s tickers -> cell row s = movement_pct (row s)) ->
  filter (row_has_value tickers)
    (map (fun (r : string -> float) s =>
            if in_band min_pct max_pct (r s) then r s else nan)
       (filter (row_has_value tickers) (map cell index)))
  = map (fun row s =>
           if in_band min_pct max_pct (cell row s) then cell row s else nan)
      (surviving_rows min_pct max_pct tickers index).
Proof.
  intros Hcell. unfold surviving_rows.
  induction index as [| row t IH]; [reflexivity |].
  cbn [map filter].
  assert (E : row_has_value tickers
                (fun s => if in_band min_pct max_pct (cell row s)
                          then cell row s else nan)
              = any_in_band min_pct max_pct row tickers).
  { unfold any_in_band. apply row_has_value_ext. intros s Hs.
    unfold masked_movement. cbv zeta. rewrite (Hcell row s Hs). reflexivity. }
  destruct (row_has_value tickers (cell row)) eqn:Ecell; cbn [map filter].
  - rewrite E. destruct (any_in_band min_pct max_pct row tickers);
      cbn [map]; rewrite IH; reflexivity.
  - rewrite <- E.
    rewrite (row_without_value_masked (in_band min_pct max_pct) _ _ Ecell).
    exact IH.
Qed.

Lemma table_shape (tickers : list string) (index : list (string -> PriceBar))
    (min_pct max_pct : float) (sector_filter : option string) :
  sector_rejected sector_filter "Unknown" = false ->
  shape (MultiIndexColumns tickers index) min_pct max_pct sector_filter
  = Ok (table_records min_pct max_pct tickers index).
Proof.
  intros Hacc. unfold shape, table_records.
  destruct (table_empty (MultiIndexColumns tickers index)) eqn:Eempty.
  - destruct tickers as [| t0 rest].
    + destruct (first_row index), (last_row index),
        (last_row (surviving_rows min_pct max_pct [] index)); reflexivity.
    + destruct index; [reflexivity | discriminate Eempty].
  - cbv zeta.
    destruct (movements_rows tickers index) as (cell & Hcell & Hpct).
    set (highs := field_frame "High" bar_high (MultiIndexColumns tickers index)) in *.
    set (lows := field_frame "Low" bar_low (MultiIndexColumns tickers index)) in *.
    set (filtered := filtered_of min_pct max_pct (movements_of highs lows)).
    assert (Hcols : columns filtered = tickers).
    { subst filtered highs lows.
      cbn [filtered_of movements_of dropna_all where_ mul_scalar div_frame sub_frame
           binop field_frame columns].
      rewrite !align_same. reflexivity. }
    assert (Hrows : rows filtered
                    = map (fun row s =>
                             if in_band min_pct max_pct (cell row s)
                             then cell row s else nan)
                        (surviving_rows min_pct max_pct tickers index)).
    { subst filtered. unfold filtered_of, movements_of.
      cbn [dropna_all where_ rows columns]. rewrite Hcell.
      replace (columns (mul_scalar (div_frame (sub_frame highs lows) lows) 100%float))
        with tickers
        by (subst highs lows;
            cbn [mul_scalar div_frame sub_frame binop field_frame columns];
            rewrite !align_same; reflexivity).
      apply masked_rows. exact Hpct. }
    rewrite Hcols.
    destruct (last_row (surviving_rows min_pct max_pct tickers index))
      as [kept |] eqn:Ekept.
    + assert (Hidx : index <> []).
      { intros ->. discriminate Ekept. }
      destruct (first_row index) as [first |] eqn:Efirst;
        [| destruct index; [congruence | discriminate Efirst]].
      destruct (last_row index) as [last |] eqn:Elast.
      2:{ exfalso. exact (Hidx (last_row_None _ Elast)). }
      rewrite (for_symbols_rows _ _ _ _ filtered sector_filter tickers
                 (fun s => bar_open (first s)) (fun s => bar_close (last s))
                 (fun s => bar_high (last s)) (fun s => bar_low (last s))
                 (fun s => if in_band min_pct max_pct (cell kept s)
                           then cell kept s else nan)).
      * cbn [app]. f_equal. apply map_ext_in. intros s Hs.
        unfold table_record, masked_movement. cbv zeta.
        rewrite (Hpct kept s Hs). reflexivity.
      * split; [reflexivity |]. cbn [field_frame rows].
        rewrite first_row_map, Efirst. reflexivity.
      * split; [reflexivity |]. cbn [field_frame rows].
        rewrite last_row_map, Elast. reflexivity.
      * split; [reflexivity |]. subst highs. cbn [field_frame rows].
        rewrite last_row_map, Elast. reflexivity.
      * split; [reflexivity |]. subst lows. cbn [field_frame rows].
        rewrite last_row_map, Elast. reflexivity.
      * split; [exact Hcols |]. rewrite Hrows, last_row_map, Ekept. reflexivity.
      * exact Hacc.
      * apply incl_refl.
    + assert (Hnone : rows filtered = []).
      { rewrite Hrows, (last_row_None _ Ekept). reflexivity. }
      rewrite (for_symbols_no_row _ _ _ _ filtered sector_filter tickers Hcols Hnone)
        by apply incl_refl.
      destruct (first_row index), (last_row index); reflexivity.
Qed.

(** X1: on a table with per-ticker columns and a filter that lets the
    placeholder sector pass, the records are those of [table_records]:
    none when no row has a ticker inside the band, and otherwise one per
    column, in column order, with the movement read in the last row that has
    some ticker inside the band, the Open in the first row of the table and
    High, Low and Close in its last row. *)
Theorem scan_of_table (env : Env) (symbols : list string)
    (min_pct max_pct : float) (selected_date : option Z)
    (sector_filter : option string) (tickers : list string)
    (index : list (string -> PriceBar)) :
  download env (make_request env symbols (resolve_date env selected_date))
    = Ok (MultiIndexColumns tickers index) ->
  sector_rejected sector_filter "Unknown" = false ->
  get_stocks_with_movement env symbols min_pct max_pct selected_date sector_filter
  = table_records min_pct max_pct tickers index.
Proof.
  intros Hdata Hacc. unfold get_stocks_with_movement, try_block.
  rewrite Hdata. cbn [bind]. rewrite (table_shape _ _ _ _ _ Hacc). reflexivity.
Qed.

Lemma scan_of_table_minutes :
  download (Sample.env Minutes.provider)
    (make_request (Sample.env Minutes.provider) ["CCC.NS"; "DDD.NS"]
       (resolve_date (Sample.env Minutes.provider) (Some Sample.date)))
  = Ok (MultiIndexColumns ["CCC.NS"; "DDD.NS"] [Minutes.minute_a; Minutes.minute_b])
  /\ sector_rejected None "Unknown" = false
  /\ get_stocks_with_movement (Sample.env Minutes.provider) ["CCC.NS"; "DDD.NS"]
       3 20 (Some Sample.date) None
     = [Minutes.CCC_record; Minutes.DDD_record].
Proof.
  split; [reflexivity | split; [reflexivity |]].
  transitivity (table_records 3 20 ["CCC.NS"; "DDD.NS"]
                  [Minutes.minute_a; Minutes.minute_b]).
  - apply (scan_of_table (Sample.env Minutes.provider) ["CCC.NS"; "DDD.NS"] 3 20
             (Some Sample.date) None); reflexivity.
  - vm_compute. reflexivity.
Defined.





(** X3: whatever the provider answers, the movement of an emitted record
    is the rounding to 2 decimals of a value inside the band, or of NaN. *)
Theorem movement_in_band_or_nan (env : Env) (symbols : list string)
    (min_pct max_pct : float) (selected_date : option Z)
    (sector_filter : option string) (r : MovementRecord) :
  In r (get_stocks_with_movement env symbols min_pct max_pct selected_date
          sector_filter) ->
  exists pct,
    Movement r = Float64.round2 pct
    /\ (in_band min_pct max_pct pct = true \/ pct = nan).
Proof.
  intros Hin.
  destruct (download env (make_request env symbols (resolve_date env selected_date)))
    as [data | e] eqn:Hdata.
  - pose proof (records_emitted env symbols min_pct max_pct selected_date
                  sector_filter data Hdata) as Hall.
    cbv zeta in Hall. rewrite Forall_forall in Hall.
    exact (emitted_movement_in_band_or_nan _ _ _ _ _ _ _ _ (Hall r Hin)).
  - unfold get_stocks_with_movement, try_block in Hin. rewrite Hdata in Hin.
    destruct Hin.
Qed.

Lemma movement_in_band_or_nan_sample :
  In Sample.BAR_record
    (get_stocks_with_movement (Sample.env Sample.daily) ["FOO.NS"; "BAR.NS"] 3 20
       (Some Sample.date) None)
  /\ exists pct,
       Movement Sample.BAR_record = Float64.round2 pct
       /\ (in_band 3 20 pct = true \/ pct = nan).
Proof.
  assert (Hin : In Sample.BAR_record
            (get_stocks_with_movement (Sample.env Sample.daily)
               ["FOO.NS"; "BAR.NS"] 3 20 (Some Sample.date) None))
    by (vm_compute; right; left; reflexivity).
  split; [exact Hin |].
  exact (movement_in_band_or_nan (Sample.env Sample.daily) ["FOO.NS"; "BAR.NS"]
           3 20 (Some Sample.date) None Sample.BAR_record Hin).
Defined.

(** X4: when the provider answers with plain field columns (the [else]
    branch of lines 55-59), no record is emitted, whatever the bars hold. *)
Theorem flat_columns_give_nothing (env : Env) (symbols : list string)
    (min_pct max_pct : float) (selected_date : option Z)
    (sector_filter : option string) (index : list PriceBar) :
  download env (make_request env symbols (resolve_date env selected_date))
    = Ok (FlatColumns index) ->
  get_stocks_with_movement env symbols min_pct max_pct selected_date sector_filter
  = [].
Proof.
  intros Hdata. unfold get_stocks_with_movement, try_block.
  rewrite Hdata. cbn [bind]. rewrite flat_shape. reflexivity.
Qed.

Lemma flat_columns_give_nothing_sample :
  download (Sample.env Sample.one_ticker_flat)
    (make_request (Sample.env Sample.one_ticker_flat) ["FOO.NS"]
       (resolve_date (Sample.env Sample.one_ticker_flat) (Some Sample.date)))
  = Ok (FlatColumns [Sample.FOO])
  /\ get_stocks_with_movement (Sample.env Sample.one_ticker_flat) ["FOO.NS"] 3 20
       (Some Sample.date) None
     = [].
Proof.
  split; [reflexivity |].
  apply (flat_columns_give_nothing (Sample.env Sample.one_ticker_flat) ["FOO.NS"]
           3 20 (Some Sample.date) None [Sample.FOO]).
  reflexivity.
Defined.

(** X5: the shaping of lines 47-81 raises nothing, so an exception caught
    by the [except] clause is always the provider's. *)
Theorem only_the_provider_raises (env : Env) (symbols : list string)
    (min_pct max_pct : float) (date : Z) (sector_filter : option string)
    (e : Exception) :
  try_block env symbols min_pct max_pct date sector_filter = Raise e ->
  download env (make_request env symbols date) = Raise e.
Proof.
  unfold try_block.
  destruct (download env (make_request env symbols date)) as [data | e'];
    cbn [bind]; intros H.
  - destruct data as [tickers index | index].
    + destruct (shape_never_raises tickers index min_pct max_pct sector_filter)
        as (out & Hout).
      rewrite Hout in H. discriminate H.
    + rewrite flat_shape in H. discriminate H.
  - injection H as ->. reflexivity.
Qed.

Lemma only_the_provider_raises_sample :
  try_block (Sample.env Sample.flaky) ["FOO.NS"; "BAR.NS"] 3 20 Sample.date None
  = Raise ProviderError
  /\ download (Sample.env Sample.flaky)
       (make_request (Sample.env Sample.flaky) ["FOO.NS"; "BAR.NS"] Sample.date)
     = Raise ProviderError.
Proof.
  split; [reflexivity |].
  apply (only_the_provider_raises (Sample.env Sample.flaky) ["FOO.NS"; "BAR.NS"]
           3 20 Sample.date None ProviderError).
  reflexivity.
Defined.

(** ** The batches of the scan loop *)

Lemma firstn_sum {A : Type} (a b : nat) (l : list A) :
  firstn (a + b) l = firstn a l ++ firstn b (skipn a l).
Proof.
  revert l. induction a as [| a IH]; intros l; [reflexivity |].
  destruct l as [| x t]; cbn [Nat.add firstn skipn app].
  - rewrite firstn_nil. reflexivity.
  - rewrite IH. reflexivity.
Qed.

Lemma concat_slices (step m : nat) (l : list string) :
  List.concat (map (fun i => slice l i step) (map (fun k => k * step) (seq 0 m)))
  = firstn (m * step) l.
Proof.
  induction m as [| m IH]; [reflexivity |].
  rewrite seq_S, !map_app, concat_app, IH. cbn [map List.concat Nat.add].
  rewrite app_nil_r. unfold slice.
  replace (S m * step) with (m * step + step) by lia.
  symmetry. apply firstn_sum.
Qed.

Lemma range_step_covers (n step : nat) :
  0 < step ->
  n <= (n + step - 1) / step * step
  /\ (n + step - 1) / step * step <= n + step - 1.
Proof.
  intros Hstep.
  pose proof (Nat.div_mod_eq (n + step - 1) step) as E.
  pose proof (Nat.mod_upper_bound (n + step - 1) step) as Hr.
  nia.
Qed.

Lemma batches_of_partition (step : nat) (all_symbols : list string) :
  0 < step ->
  List.concat (batches_of step all_symbols) = all_symbols
  /\ Forall (fun batch => 1 <= List.length batch <= step)
       (batches_of step all_symbols).
Proof.
  intros Hstep. unfold batches_of, range_step.
  destruct (range_step_covers (List.length all_symbols) step Hstep) as (Hlo & Hhi).
  split.
  - rewrite concat_slices. apply firstn_all2. exact Hlo.
  - apply Forall_forall. intros batch Hin.
    apply in_map_iff in Hin. destruct Hin as (i & <- & Hi).
    apply in_map_iff in Hi. destruct Hi as (k & <- & Hk).
    apply in_seq in Hk. unfold slice.
    rewrite length_firstn, length_skipn. nia.
Qed.

(** X6: the slices of lines 121-122, joined in order, give back the symbol
    list, so every symbol is sent to the provider in exactly one batch; each
    batch holds between 1 and 500 symbols. *)
Theorem batches_cover_every_symbol_once (all_symbols : list string) :
  List.concat (batches_of batch_size all_symbols) = all_symbols
  /\ Forall (fun batch => 1 <= List.length batch <= batch_size)
       (batches_of batch_size all_symbols).
Proof.
  apply batches_of_partition. unfold batch_size. lia.
Qed.

(** ** What the scan loop collects *)

Lemma collect_filter (env : Env) (min_pct max_pct : float) (date : Z)
    (sector_filter : option string) (batches : list (list string))
    (results : list (list MovementRecord)) :
  collect env min_pct max_pct date sector_filter batches results
  = results
    ++ filter not_empty_test
         (map (fun batch => get_stocks_with_movement env batch min_pct max_pct
                              (Some date) sector_filter) batches).
Proof.
  revert results. induction batches as [| batch rest IH]; intros results.
  - cbn. rewrite app_nil_r. reflexivity.
  - cbn [collect map filter].
    destruct (get_stocks_with_movement env batch min_pct max_pct (Some date)
                sector_filter) as [| r df] eqn:E.
    + apply IH.
    + cbn [not_empty_test]. rewrite IH, <- app_assoc. reflexivity.
Qed.

Lemma concat_filter_not_empty (ll : list (list MovementRecord)) :
  List.concat (filter not_empty_test ll) = List.concat ll.
Proof.
  induction ll as [| l t IH]; [reflexivity |].
  destruct l as [| r l']; cbn [filter not_empty_test List.concat app].
  - exact IH.
  - rewrite IH. reflexivity.
Qed.

(** X7: when the sort only reorders, the final table holds exactly the
    records of all the batch results, none lost and none repeated, and is
    not empty; the branch that reports that nothing matched is taken exactly
    when every batch result is empty. *)
Theorem scan_keeps_every_batch_result (env : Env) (min_pct max_pct : float)
    (date : Z) (sector_filter : option string)
    (sort_values : list MovementRecord -> list MovementRecord)
    (batches : list (list string)) :
  (forall l, Permutation (sort_values l) l) ->
  match scan_batches env min_pct max_pct date sector_filter sort_values batches with
  | Some final =>
      final <> []
      /\ Permutation final
           (flat_map (fun batch => get_stocks_with_movement env batch min_pct max_pct
                                     (Some date) sector_filter) batches)
  | None =>
      flat_map (fun batch => get_stocks_with_movement env batch min_pct max_pct
                               (Some date) sector_filter) batches = []
  end.
Proof.
  intros Hperm. unfold scan_batches.
  rewrite collect_filter, flat_map_concat_map. cbn [app].
  rewrite <- concat_filter_not_empty.
  set (results := filter not_empty_test _).
  assert (Hne : Forall (fun l => l <> []) results).
  { subst results. apply Forall_forall. intros l Hl.
    apply filter_In in Hl. destruct Hl as (_ & Hl).
    destruct l; [discriminate Hl | discriminate]. }
  destruct results as [| df rest]; [reflexivity |].
  split; [| apply Hperm].
  intros E. pose proof (Hperm (List.concat (df :: rest))) as P.
  rewrite E in P. apply Permutation_nil in P.
  inversion Hne as [| ? ? Hdf _]; subst.
  destruct df; [congruence | discriminate P].
Qed.

Lemma scan_keeps_every_batch_result_sample :
  (forall l : list MovementRecord, Permutation ((fun l => l) l) l)
  /\ match scan_batches (Sample.env Sample.daily) 3 20 Sample.date None (fun l => l)
            [["FOO.NS"]; ["BAR.NS"]] with
     | Some final =>
         final <> []
         /\ Permutation final
              (flat_map (fun batch =>
                           get_stocks_with_movement (Sample.env Sample.daily) batch
                             3 20 (Some Sample.date) None)
                 [["FOO.NS"]; ["BAR.NS"]])
     | None =>
         flat_map (fun batch =>
                     get_stocks_with_movement (Sample.env Sample.daily) batch
                       3 20 (Some Sample.date) None)
           [["FOO.NS"]; ["BAR.NS"]] = []
     end.
Proof.
  split; [intros l; apply Permutation_refl |].
  apply (scan_keeps_every_batch_result (Sample.env Sample.daily) 3 20 Sample.date
           None (fun l => l) [["FOO.NS"]; ["BAR.NS"]]).
  intros l. apply Permutation_refl.
Defined.

(** ** The session store *)

Lemma init_live_has_live (st : Session.State) :
  Session.has_live (Session.init_live st) = true.
Proof. unfold Session.init_live, Session.has_live. destruct (Session.live st) eqn:E; cbn; [rewrite E|]; reflexivity. Qed.

(** X8: line 46 tests that the key 'live' is in the session store, and
    lines 105-106 put it there at every run, so every scanner call of the
    script asks for minute bars, with live mode off as well as on. *)
Theorem app_requests_minute_bars (st : Session.State) (auto_refresh : bool)
    (t clock : datetime) (provider : Request -> Exc PriceTable)
    (symbols : list string) (date : Z) :
  req_interval
    (make_request (Session.env clock (Session.init_live st) provider) symbols date)
  = OneMinute
  /\ req_interval
       (make_request
          (Session.env clock
             (Session.init_live
                (fst (Session.auto_refresh_step auto_refresh t
                        (Session.init_live st))))
             provider)
          symbols date)
     = OneMinute.
Proof.
  cbn [make_request req_interval Session.env live_in_session_state].
  rewrite !init_live_has_live. split; reflexivity.
Qed.

Lemma refresh_window_minutes (t : datetime) :
  (0 <= minute t < 60)%Z ->
  Session.refresh_window t
  = ((9 * 60 <=? hour t * 60 + minute t)
     && (hour t * 60 + minute t <=? 15 * 60 + 30))%Z.
Proof.
  intros Hm. unfold Session.refresh_window.
  destruct (Z.leb_spec 9 (hour t)); destruct (Z.leb_spec (hour t) 15);
    destruct (Z.eqb_spec (hour t) 15); destruct (Z.leb_spec (minute t) 30);
    destruct (Z.leb_spec (9 * 60) (hour t * 60 + minute t));
    destruct (Z.leb_spec (hour t * 60 + minute t) (15 * 60 + 30));
    cbn; try reflexivity; lia.
Qed.

(** X9: the auto-refresh of line 154 runs from 09:00 to 15:30, both
    included; it covers the window 09:15 to 15:30 in which the scanner takes
    today as its default date, and the two differ exactly from 09:00 to
    09:14. *)
Theorem refresh_window_wider_than_session (t : datetime) :
  (0 <= minute t < 60)%Z ->
  (Session.refresh_window t = true
     <-> (9 * 60 <= hour t * 60 + minute t <= 15 * 60 + 30)%Z)
  /\ (market_closed t = false -> Session.refresh_window t = true)
  /\ (Session.refresh_window t = true /\ market_closed t = true
      <-> hour t = 9%Z /\ (minute t < 15)%Z).
Proof.
  intros Hm.
  rewrite (refresh_window_minutes t Hm), (market_closed_window t Hm).
  unfold in_session_window.
  destruct (Z.leb_spec (9 * 60) (hour t * 60 + minute t));
    destruct (Z.leb_spec (9 * 60 + 15) (hour t * 60 + minute t));
    destruct (Z.leb_spec (hour t * 60 + minute t) (15 * 60 + 30));
    cbn; (split; [| split]);
    try (split; [intros H2; try discriminate H2; lia
                | intros H2; try reflexivity; lia]);
    try (intros H2; try discriminate H2; try reflexivity; lia);
    try (split; [intros [H2 H3]; try discriminate H2; try discriminate H3; lia
                | intros H2; try (split; reflexivity); lia]).
Qed.

Lemma refresh_before_the_session_opens :
  (0 <= minute Minutes.five_past_nine < 60)%Z
  /\ Session.refresh_window Minutes.five_past_nine = true
  /\ market_closed Minutes.five_past_nine = true.
Proof.
  split; [cbn; lia |].
  apply (refresh_window_wider_than_session Minutes.five_past_nine).
  - cbn; lia.
  - cbn; lia.
Defined.

(** ** The symbol sources *)

Lemma length_append (a b : string) :
  String.length (a ++ b) = String.length a + String.length b.
Proof. induction a as [| c a IH]; cbn; [reflexivity | rewrite IH; reflexivity]. Qed.

Lemma append_suffix_inj (a b x y : string) :
  String.length x = String.length y ->
  (a ++ x)%string = (b ++ y)%string -> a = b /\ x = y.
Proof.
  intros Hlen. revert b.
  induction a as [| c a IH]; intros [| d b] H; cbn in H.
  - split; [reflexivity | exact H].
  - apply (f_equal String.length) in H. cbn in H.
    rewrite length_append in H. lia.
  - apply (f_equal String.length) in H. cbn in H.
    rewrite length_append in H. lia.
  - injection H as -> H. destruct (IH b H) as (-> & ->). split; reflexivity.
Qed.

Lemma nse_symbols_suffix (fetched : Exc Symbols.NseResponse) (symbols : list string) :
  Symbols.get_nse_symbols fetched = Ok symbols ->
  Forall (fun s => exists x, s = (x ++ ".NS")%string) symbols.
Proof.
  unfold Symbols.get_nse_symbols.
  destruct fetched as [response | e]; cbn [bind]; [| discriminate].
  destruct (Symbols.nse_status response =? 200)%Z.
  - destruct (Symbols.nse_csv response) as [df | e]; cbn [bind]; [| discriminate].
    destruct (Symbols.csv_column df "SYMBOL") as [column | e]; cbn [bind];
      [| discriminate].
    intros H. injection H as <-. apply Forall_forall. intros s Hs.
    apply in_map_iff in Hs. destruct Hs as (x & <- & _). exists x. reflexivity.
  - intros H. injection H as <-. constructor.
Qed.

Lemma bse_symbols_suffix (fetched : Exc Symbols.BseResponse) (symbols : list string) :
  Symbols.get_bse_symbols fetched = Ok symbols ->
  Forall (fun s => exists x, s = (x ++ ".BO")%string) symbols.
Proof.
  unfold Symbols.get_bse_symbols.
  destruct fetched as [response | e]; cbn [bind]; [| discriminate].
  destruct (Symbols.bse_status response =? 200)%Z.
  - destruct (Symbols.bse_json response) as [[table |] | e]; cbn [bind];
      [| intros H; injection H as <-; constructor | discriminate].
    destruct (Symbols.records_column table "scrip_id") as [column | e]; cbn [bind];
      [| discriminate].
    intros H. injection H as <-. apply Forall_forall. intros s Hs.
    apply in_map_iff in Hs. destruct Hs as (x & <- & _). exists x. reflexivity.
  - intros H. injection H as <-. constructor.
Qed.

(** X10: a symbol returned by [get_nse_symbols] is never returned by
    [get_bse_symbols]: the suffixes ".NS" and ".BO" keep the two listings
    apart. *)
Theorem exchanges_share_no_symbol (nse : Exc Symbols.NseResponse)
    (bse : Exc Symbols.BseResponse) (nse_symbols bse_symbols : list string)
    (s : string) :
  Symbols.get_nse_symbols nse = Ok nse_symbols ->
  Symbols.get_bse_symbols bse = Ok bse_symbols ->
  In s nse_symbols -> ~ In s bse_symbols.
Proof.
  intros Hn Hb Hsn Hsb.
  apply nse_symbols_suffix in Hn. apply bse_symbols_suffix in Hb.
  rewrite Forall_forall in Hn, Hb.
  destruct (Hn s Hsn) as (x & Hx). destruct (Hb s Hsb) as (y & Hy).
  rewrite Hx in Hy.
  destruct (append_suffix_inj x y ".NS" ".BO" eq_refl Hy) as (_ & H).
  discriminate H.
Qed.

Lemma exchanges_share_no_symbol_sample :
  Symbols.get_nse_symbols Symbols.nse_listing = Ok ["INFY.NS"; "TCS.NS"]
  /\ Symbols.get_bse_symbols Symbols.bse_listing = Ok ["INFY.BO"; "TCS.BO"]
  /\ In "INFY.NS" ["INFY.NS"; "TCS.NS"]
  /\ ~ In "INFY.NS" ["INFY.BO"; "TCS.BO"].
Proof.
  split; [reflexivity | split; [reflexivity | split; [left; reflexivity |]]].
  apply (exchanges_share_no_symbol Symbols.nse_listing Symbols.bse_listing
           ["INFY.NS"; "TCS.NS"] ["INFY.BO"; "TCS.BO"] "INFY.NS");
    [reflexivity | reflexivity | left; reflexivity].
Defined.

(** X11: on a 200 answer whose JSON has the key 'Table',
    [get_bse_symbols] returns one symbol per row of the table whenever it
    returns, and never for an empty table: an empty table raises
    KeyError('scrip_id'). *)
Theorem bse_table_rows (response : Symbols.BseResponse) (table : list Symbols.JsonRow) :
  Symbols.bse_status response = 200%Z ->
  Symbols.bse_json response = Ok (Some table) ->
  (forall symbols,
      Symbols.get_bse_symbols (Ok response) = Ok symbols ->
      List.length symbols = List.length table /\ table <> [])
  /\ (table = [] ->
      Symbols.get_bse_symbols (Ok response) = Raise (KeyError "scrip_id")).
Proof.
  intros Hstatus Hjson. unfold Symbols.get_bse_symbols. cbn [bind].
  rewrite Hstatus, Hjson. cbn [Z.eqb Pos.eqb bind].
  unfold Symbols.records_column. split.
  - intros symbols.
    destruct (existsb (Symbols.has_field "scrip_id") table) eqn:E; cbn [bind];
      intros H; [| discriminate H].
    injection H as <-. rewrite !length_map. split; [reflexivity |].
    intros ->. discriminate E.
  - intros ->. reflexivity.
Qed.

Lemma bse_table_rows_sample :
  Symbols.bse_status Symbols.bse_answer = 200%Z
  /\ Symbols.bse_json Symbols.bse_answer = Ok (Some Symbols.bse_table)
  /\ (forall symbols,
        Symbols.get_bse_symbols (Ok Symbols.bse_answer) = Ok symbols ->
        List.length symbols = List.length Symbols.bse_table
        /\ Symbols.bse_table <> []).
Proof.
  split; [reflexivity | split; [reflexivity |]].
  apply (bse_table_rows Symbols.bse_answer Symbols.bse_table); reflexivity.
Defined.

Section Fetch.
Variable list_of_set : list string -> list string.
Hypothesis list_of_set_spec :
  forall l, Permutation (list_of_set l) (nodup string_dec l).

(** X12: the list of lines 111-113 has no symbol twice, every symbol of
    it ends in ".NS" or ".BO", and it holds exactly the symbols the two
    sources returned. *)
Theorem fetched_symbols_distinct (nse : Exc Symbols.NseResponse)
    (bse : Exc Symbols.BseResponse) (all_symbols : list string) :
  Symbols.fetch_all_symbols list_of_set nse bse = Ok all_symbols ->
  NoDup all_symbols
  /\ Forall (fun s => exists x, s = (x ++ ".NS")%string \/ s = (x ++ ".BO")%string)
       all_symbols
  /\ exists nse_symbols bse_symbols,
       Symbols.get_nse_symbols nse = Ok nse_symbols
       /\ Symbols.get_bse_symbols bse = Ok bse_symbols
       /\ forall s, In s all_symbols <-> In s nse_symbols \/ In s bse_symbols.
Proof.
  unfold Symbols.fetch_all_symbols. intros H.
  apply bind_Ok in H. destruct H as (n & Hn & H).
  apply bind_Ok in H. destruct H as (b & Hb & H).
  injection H as <-.
  assert (Hin : forall s, In s (list_of_set (n ++ b)) <-> In s n \/ In s b).
  { intros s. rewrite <- in_app_iff. split; intros Hs.
    - apply (nodup_In string_dec).
      apply (Permutation_in s (list_of_set_spec (n ++ b))). exact Hs.
    - apply (Permutation_in s (Permutation_sym (list_of_set_spec (n ++ b)))).
      apply (nodup_In string_dec). exact Hs. }
  split; [| split].
  - apply (Permutation_NoDup (Permutation_sym (list_of_set_spec (n ++ b)))).
    apply NoDup_nodup.
  - apply Forall_forall. intros s Hs. apply Hin in Hs.
    pose proof (nse_symbols_suffix _ _ Hn) as Fn.
    pose proof (bse_symbols_suffix _ _ Hb) as Fb.
    rewrite Forall_forall in Fn, Fb.
    destruct Hs as [Hs | Hs].
    + destruct (Fn s Hs) as (x & ->). exists x. left. reflexivity.
    + destruct (Fb s Hs) as (x & ->). exists x. right. reflexivity.
  - exists n, b. split; [exact Hn | split; [exact Hb | exact Hin]].
Qed.
End Fetch.

Lemma fetched_symbols_distinct_sample :
  (forall l, Permutation (nodup string_dec l) (nodup string_dec l))
  /\ Symbols.fetch_all_symbols (nodup string_dec) Symbols.nse_listing
       Symbols.bse_listing
     = Ok ["INFY.NS"; "TCS.NS"; "INFY.BO"; "TCS.BO"]
  /\ NoDup ["INFY.NS"; "TCS.NS"; "INFY.BO"; "TCS.BO"].
Proof.
  split; [intros l; apply Permutation_refl | split; [vm_compute; reflexivity |]].
  apply (fetched_symbols_distinct (nodup string_dec)
           (fun l => Permutation_refl _) Symbols.nse_listing Symbols.bse_listing
           ["INFY.NS"; "TCS.NS"; "INFY.BO"; "TCS.BO"]).
  vm_compute. reflexivity.
Defined.

(** ** The sector choices of the sidebar *)

Lemma rejected_scan_is_empty (env : Env) (symbols : list string)
    (min_pct max_pct : float) (selected_date : option Z)
    (sector_filter : option string) :
  sector_rejected sector_filter "Unknown" = true ->
  get_stocks_with_movement env symbols min_pct max_pct selected_date sector_filter
  = [].
Proof.
  intros Hrej. unfold get_stocks_with_movement, try_block.
  destruct (download env _) as [data | e]; cbn [bind]; [| reflexivity].
  unfold shape. destruct (table_empty data); [reflexivity |]. cbv zeta.
  destruct (for_symbols _ _ _ _ _ sector_filter _ _) as [out | e] eqn:E;
    [| reflexivity].
  exact (rejected_appends_nothing _ _ _ _ _ _ Hrej _ _ _ E).
Qed.

(** X13: with the placeholder sector in place, every sector choice of the
    sidebar other than "All" makes the whole scan end in the branch that
    reports that nothing matched, whatever the prices. *)
Theorem sector_choice_empties_the_scan (env : Env) (min_pct max_pct : float)
    (date : Z) (sort_values : list MovementRecord -> list MovementRecord)
    (batches : list (list string)) (choice : string) :
  In choice sector_choices ->
  choice <> "All" ->
  scan_batches env min_pct max_pct date (sidebar_sector_filter choice) sort_values
    batches
  = None.
Proof.
  intros Hin Hall.
  assert (Hrej : sector_rejected (sidebar_sector_filter choice) "Unknown" = true).
  { unfold sector_choices in Hin. cbn [In] in Hin.
    destruct Hin as [<- | [<- | [<- | [<- | [<- | []]]]]];
      [congruence | reflexivity | reflexivity | reflexivity | reflexivity]. }
  unfold scan_batches. rewrite collect_filter. cbn [app].
  replace (filter not_empty_test _) with (@nil (list MovementRecord));
    [reflexivity |].
  induction batches as [| batch rest IH]; [reflexivity |].
  cbn [map filter]. rewrite (rejected_scan_is_empty _ _ _ _ _ _ Hrej).
  cbn [not_empty_test]. exact IH.
Qed.

Lemma sector_choice_empties_the_scan_sample :
  In "IT" sector_choices
  /\ "IT" <> "All"
  /\ scan_batches (Sample.env Sample.daily) 3 20 Sample.date
       (sidebar_sector_filter "IT") (fun l => l) [["FOO.NS"]]
     = None
  /\ scan_batches (Sample.env Sample.daily) 3 20 Sample.date
       (sidebar_sector_filter "All") (fun l => l) [["FOO.NS"]]
     = Some [Sample.FOO_record].
Proof.
  assert (Hin : In "IT" sector_choices) by (right; left; reflexivity).
  assert (Hne : "IT" <> "All") by discriminate.
  split; [exact Hin | split; [exact Hne | split]].
  - exact (sector_choice_empties_the_scan (Sample.env Sample.daily) 3 20
             Sample.date (fun l => l) [["FOO.NS"]] "IT" Hin Hne).
  - vm_compute. reflexivity.
Defined.
